(** * Webgraphy: the graph routes of [backend/app/api/routes/graphs.py]

    The routes are embedded as functions over an explicit database state.
    The store they talk to (ArangoDB through the python-arango driver) is
    modelled in [Module Arango]: two collections, the document API calls
    the routes make ([has], [get], [insert]) and the AQL queries they send,
    each query embedded as the function it denotes. *)

From Stdlib Require Import ZArith Lia Ascii.
From stdpp Require Import base option list strings gmap pretty.

(** ** JSON values

    Everything the routes pass around without looking inside (attribute
    values, property maps) is a JSON value. Python's [None] and AQL's [null]
    are both [JNull]. Numbers are integers here: no route computes on them. *)

#[local] Unset Elimination Schemes.
Inductive json : Type :=
  | JNull
  | JBool (b : bool)
  | JNum (n : Z)
  | JStr (s : string)
  | JArr (items : list json)
  | JObj (members : list (string * json)).
#[local] Set Elimination Schemes.

Fixpoint json_eqb (x y : json) : bool :=
  match x, y with
  | JNull, JNull => true
  | JBool a, JBool b => Bool.eqb a b
  | JNum a, JNum b => Z.eqb a b
  | JStr a, JStr b => String.eqb a b
  | JArr xs, JArr ys =>
      (fix go (xs ys : list json) : bool :=
         match xs, ys with
         | [], [] => true
         | x :: xs, y :: ys => json_eqb x y && go xs ys
         | _, _ => false
         end) xs ys
  | JObj xs, JObj ys =>
      (fix go (xs ys : list (string * json)) : bool :=
         match xs, ys with
         | [], [] => true
         | (k, x) :: xs, (k', y) :: ys =>
             String.eqb k k' && json_eqb x y && go xs ys
         | _, _ => false
         end) xs ys
  | _, _ => false
  end.

(** Induction over a JSON value that reaches the values nested in arrays and
    objects. *)
Section json_nested_ind.
Variable P : json → Prop.
Hypothesis Hnull : P JNull.
Hypothesis Hbool : ∀ b, P (JBool b).
Hypothesis Hnum : ∀ n, P (JNum n).
Hypothesis Hstr : ∀ s, P (JStr s).
Hypothesis Harr : ∀ xs, Forall P xs → P (JArr xs).
Hypothesis Hobj : ∀ kvs, Forall (λ kv, P kv.2) kvs → P (JObj kvs).

Fixpoint json_nested_ind (x : json) : P x :=
  match x with
  | JNull => Hnull
  | JBool b => Hbool b
  | JNum n => Hnum n
  | JStr s => Hstr s
  | JArr xs =>
      Harr xs
        ((fix go (l : list json) : Forall P l :=
            match l with
            | [] => @List.Forall_nil _ P
            | y :: l' => @List.Forall_cons _ P y l' (json_nested_ind y) (go l')
            end) xs)
  | JObj kvs =>
      Hobj kvs
        ((fix go (l : list (string * json)) : Forall (λ kv, P kv.2) l :=
            match l with
            | [] => @List.Forall_nil _ (λ kv, P kv.2)
            | kv :: l' =>
                @List.Forall_cons _ (λ kv, P kv.2) kv l' (json_nested_ind kv.2) (go l')
            end) kvs)
  end.
End json_nested_ind.

Lemma json_eqb_eq (x y : json) : json_eqb x y = true ↔ x = y.
Proof.
  revert y. induction x as [| b | n | s | xs IH | kvs IH] using json_nested_ind;
    intros [| b' | n' | s' | ys | kvs']; simpl; try (split; congruence).
  - rewrite Bool.eqb_true_iff. split; congruence.
  - rewrite Z.eqb_eq. split; congruence.
  - rewrite String.eqb_eq. split; congruence.
  - revert ys. induction IH as [| x xs Hx _ IHxs]; intros [| y ys];
      try (split; congruence).
    rewrite andb_true_iff, Hx, IHxs. split.
    + intros [-> E]. by inversion E.
    + intros E. inversion E. done.
  - revert kvs'. induction IH as [| [k x] kvs Hx _ IHkvs]; intros [| [k' y] kvs'];
      try (split; congruence).
    simpl in Hx. rewrite !andb_true_iff, String.eqb_eq, Hx, IHkvs. split.
    + intros [[-> ->] E]. by inversion E.
    + intros E. inversion E. done.
Qed.

Global Instance json_eq_dec : EqDecision json.
Proof.
  intros x y. destruct (json_eqb x y) eqn:E.
  - left. by apply json_eqb_eq.
  - right. intros H. apply json_eqb_eq in H. congruence.
Defined.

(** ** The store

    A model of the ArangoDB database [get_db] hands to the routes: the
    document collection "nodes", the edge collection "edges", and the
    server tick the key generator draws from. Collections are lists in the
    store's scan order. Connection failures are not modelled: the only
    exceptions are the ones [insert] raises on the document it is given. *)

Module Arango.

(** A stored vertex document: the [_key] system attribute and the
    attributes the client wrote. *)
Module Doc.
Record t := mk { _key : string; attrs : gmap string json }.
(** [_id] of a document of the collection "nodes". *)
Definition _id (d : t) : string := "nodes/" +:+ _key d.
(** [d.a] in AQL: the attribute, or [null] when the document has none. *)
Definition attr (d : t) (a : string) : json := default JNull (attrs d !! a).
End Doc.

(** A stored edge document. *)
Module EdgeDoc.
Record t := mk
  { _key : string; _from : string; _to : string; attrs : gmap string json }.
Definition attr (e : t) (a : string) : json := default JNull (attrs e !! a).
End EdgeDoc.

Record database := Database
  { nodes : list Doc.t; edges : list EdgeDoc.t; tick : N }.

Definition empty : database := Database [] [] 0.

(** The driver's exception for a refused insert: the HTTP status and the
    error number of the server's answer, and its message. *)
Inductive exn :=
  DocumentInsertError (http_code : Z) (error_code : Z) (message : string).

(** [str(e)]: the driver renders a server error as
    [[HTTP status][ERR number] message]. *)
Definition str (e : exn) : string :=
  match e with
  | DocumentInsertError h c m =>
      "[HTTP " +:+ pretty h +:+ "][ERR " +:+ pretty c +:+ "] " +:+ m
  end.

(** Error 1210 (the server's message goes on to name the index and the
    key) and error 1233. *)
Definition unique_constraint_violated : exn :=
  DocumentInsertError 409 1210 "unique constraint violated".
Definition invalid_edge_attribute : exn :=
  DocumentInsertError 400 1233 "edge attribute missing or invalid".

(** [collection.has(key)] and [collection.get(key)] on "nodes", for a key
    as the routes pass it: a path parameter, which holds no slash (the
    driver reads a string with a slash as a document handle; no request
    reaches it with one). *)
Definition has (coll : list Doc.t) (key : string) : bool :=
  bool_decide (key ∈ Doc._key <$> coll).

Definition get (coll : list Doc.t) (key : string) : option Doc.t :=
  find (λ d, bool_decide (Doc._key d = key)) coll.

(** The key the server generates for the next document. *)
Definition next_key (db : database) : string := pretty (N.succ (tick db)).

(** [db.collection("nodes").insert(document)] for a document without
    [_key] (the routes never pass one): the server generates the key; a
    key already in the collection violates the primary index. Returns the
    [_key] of the driver's result. *)
Definition insert_node (document : gmap string json) (db : database)
  : exn + (string * database) :=
  let key := next_key db in
  if has (nodes db) key then inl unique_constraint_violated
  else inr (key, {| nodes := nodes db ++ [Doc.mk key document];
                    edges := edges db;
                    tick := N.succ (tick db) |}).

(** Splits ["collection/key"] at its first slash. *)
Fixpoint split_handle (s : string) : option (string * string) :=
  match s with
  | EmptyString => None
  | String c s' =>
      if Ascii.eqb c "/"%char then Some (EmptyString, s')
      else (λ p : string * string, (String c p.1, p.2)) <$> split_handle s'
  end.

(** The characters of names and keys. *)
Definition is_letter (c : ascii) : bool :=
  let n := N_of_ascii c in
  ((65 <=? n) && (n <=? 90) || (97 <=? n) && (n <=? 122))%N.

Definition is_digit (c : ascii) : bool :=
  let n := N_of_ascii c in ((48 <=? n) && (n <=? 57))%N.

Definition is_name_char (c : ascii) : bool :=
  is_letter c || is_digit c || Ascii.eqb c "_"%char || Ascii.eqb c "-"%char.

Definition is_key_char (c : ascii) : bool :=
  is_letter c || is_digit c
  || existsb (Ascii.eqb c) (String.list_ascii_of_string "_-.@()+,=;$!*'%:").

(** A collection name: a letter (an underscore for a system collection),
    then letters, digits, underscores and dashes, 256 bytes at most. *)
Definition valid_collection_name (s : string) : bool :=
  match s with
  | EmptyString => false
  | String c rest =>
      (is_letter c || Ascii.eqb c "_"%char)
      && forallb is_name_char (String.list_ascii_of_string rest)
      && (String.length s <=? 256)%nat
  end.

(** A document key: 1 to 254 bytes, letters, digits and the punctuation
    the server allows in keys; no slash and no blank. *)
Definition valid_key (s : string) : bool :=
  (1 <=? String.length s)%nat && (String.length s <=? 254)%nat
  && forallb is_key_char (String.list_ascii_of_string s).

(** A well-formed document handle: a collection name, a slash, a key. *)
Definition valid_handle (s : string) : bool :=
  match split_handle s with
  | Some (c, k) => valid_collection_name c && valid_key k
  | None => false
  end.

(** [db.collection("edges").insert(document)]: the document API checks
    that [_from] and [_to] are well-formed document handles and nothing
    else; it does not look the handles up. *)
Definition insert_edge (document : gmap string json) (db : database)
  : exn + (string * database) :=
  match document !! "_from", document !! "_to" with
  | Some (JStr f), Some (JStr t) =>
      if valid_handle f && valid_handle t then
        let key := next_key db in
        if bool_decide (key ∈ EdgeDoc._key <$> edges db)
        then inl unique_constraint_violated
        else inr (key,
                  {| nodes := nodes db;
                     edges := edges db ++
                       [EdgeDoc.mk key f t
                          (delete "_from" (delete "_to" document))];
                     tick := N.succ (tick db) |})
      else inl invalid_edge_attribute
  | _, _ => inl invalid_edge_attribute
  end.

(** *** AQL *)

(** [FOR n IN nodes FILTER n.type == @type LIMIT @limit RETURN n] *)
Definition nodes_of_type (db : database) (type : string) (limit : Z)
  : list Doc.t :=
  take (Z.to_nat limit)
    (filter (λ n, Doc.attr n "type" = JStr type) (nodes db)).

(** [FOR n IN nodes LIMIT @limit RETURN n] *)
Definition nodes_limit (db : database) (limit : Z) : list Doc.t :=
  take (Z.to_nat limit) (nodes db).

(** [FOR e IN edges LIMIT @limit RETURN e] *)
Definition edges_limit (db : database) (limit : Z) : list EdgeDoc.t :=
  take (Z.to_nat limit) (edges db).

(** [DOCUMENT(@node_id)]: the document with that [_id], or [null]. *)
Definition DOCUMENT (db : database) (id : string) : option Doc.t :=
  find (λ d, bool_decide (Doc._id d = id)) (nodes db).

(** Direction [ANY]: an edge leads from [cur] to its other end, whichever
    end [cur] is. A loop on [cur] leads back to [cur] and is taken once. *)
Definition other_end (cur : string) (e : EdgeDoc.t) : option string :=
  if decide (EdgeDoc._from e = cur) then Some (EdgeDoc._to e)
  else if decide (EdgeDoc._to e = cur) then Some (EdgeDoc._from e)
  else None.

(** [FOR v, e IN 1..@depth ANY @node_id GRAPH 'webgraph'] with the default
    options (depth first, [uniqueVertices: "none"], [uniqueEdges:
    "path"]): every path of 1 to [depth] edges that starts at the start
    vertex and repeats no edge is emitted once, as the handle of its last
    vertex and its last edge. [used] holds the keys of the edges of the
    path so far. Edges are tried in the collection's scan order; the order
    of the rows is the only thing that depends on it. *)
Fixpoint paths (E : list EdgeDoc.t) (depth : nat) (cur : string)
    (used : list string) : list (string * EdgeDoc.t) :=
  match depth with
  | O => []
  | S d =>
      E ≫= λ e,
        match other_end cur e with
        | Some v =>
            if decide (EdgeDoc._key e ∈ used) then []
            else (v, e) :: paths E d v (EdgeDoc._key e :: used)
        | None => []
        end
  end.

(** The rows [{vertex: v, edge: e}] of the traversal; [v] is [null] when
    no document has the handle the edge names. *)
Definition traversal (db : database) (node_id : string) (depth : nat)
  : list (option Doc.t * option EdgeDoc.t) :=
  (λ p : string * EdgeDoc.t, (DOCUMENT db p.1, Some p.2))
    <$> paths (edges db) depth node_id [].

(** [RETURN DISTINCT]: the first occurrence of every value is kept. *)
Fixpoint distinct {A} `{EqDecision A} (l : list A) : list A :=
  match l with
  | [] => []
  | x :: l' => x :: filter (λ y, y ≠ x) (distinct l')
  end.

(** The objects the neighborhood query builds. An attribute of [null],
    and an attribute a document does not have, are [null]. *)
Module NodeRow.
Record t := mk { _key : json; label : json; type : json; properties : json }.
Definition of_vertex (v : option Doc.t) : t :=
  match v with
  | Some d => mk (JStr (Doc._key d)) (Doc.attr d "label")
                (Doc.attr d "type") (Doc.attr d "properties")
  | None => mk JNull JNull JNull JNull
  end.
End NodeRow.

Module EdgeRow.
Record t := mk
  { _key : json; _from : json; _to : json; label : json; properties : json }.
Definition of_edge (e : option EdgeDoc.t) : t :=
  match e with
  | Some d => mk (JStr (EdgeDoc._key d)) (JStr (EdgeDoc._from d))
                (JStr (EdgeDoc._to d)) (EdgeDoc.attr d "label")
                (EdgeDoc.attr d "properties")
  | None => mk JNull JNull JNull JNull JNull
  end.
End EdgeRow.

Global Instance node_row_eq_dec : EqDecision NodeRow.t.
Proof. solve_decision. Defined.
Global Instance edge_row_eq_dec : EqDecision EdgeRow.t.
Proof. solve_decision. Defined.

(** The query of [get_node_neighbors], lines 205-249: its single result
    row [{nodes: nodes, edges: edges}]. *)
Definition neighborhood (db : database) (node_id : string) (depth : Z)
  : list NodeRow.t * list EdgeRow.t :=
  let start_node := DOCUMENT db node_id in
  let neighbors := traversal db node_id (Z.to_nat depth) in
  let nodes :=
    [NodeRow.of_vertex start_node]
      ++ distinct ((λ n, NodeRow.of_vertex n.1) <$> neighbors) in
  let edges :=
    distinct ((λ n, EdgeRow.of_edge n.2)
                <$> filter (λ n, n.2 ≠ None) neighbors) in
  (nodes, edges).

End Arango.

(** ** The request models, [backend/app/models/graph.py]

    A value of a model is a parsed request body. A field with a default is
    [None] when the body did not set it: pydantic records the fields that
    were set, and [dict(exclude_unset=True)] leaves the others out. [id] may
    also be set to null, which is [Some None]. *)

Module Node.
Record t := mk
  { id : option (option string);
    label : string;
    type : string;
    properties : option (list (string * json)) }.

Definition json_of_id (i : option string) : json :=
  match i with Some s => JStr s | None => JNull end.

(** [node.dict(exclude_unset=True)] *)
Definition dict (node : t) : gmap string json :=
  let d : gmap string json :=
    <["label" := JStr (label node)]> (<["type" := JStr (type node)]> ∅) in
  let d := match id node with
           | Some i => <["id" := json_of_id i]> d
           | None => d
           end in
  match properties node with
  | Some p => <["properties" := JObj p]> d
  | None => d
  end.

(** The value of [node.properties]: the default is the empty map. *)
Definition properties_value (node : t) : list (string * json) :=
  default [] (properties node).
End Node.

Module Edge.
Record t := mk
  { id : option (option string);
    from_node : string;
    to_node : string;
    label : string;
    properties : option (list (string * json)) }.

(** [edge.dict(exclude_unset=True)] *)
Definition dict (edge : t) : gmap string json :=
  let d : gmap string json :=
    <["from_node" := JStr (from_node edge)]>
      (<["to_node" := JStr (to_node edge)]>
         (<["label" := JStr (label edge)]> ∅)) in
  let d := match id edge with
           | Some i => <["id" := Node.json_of_id i]> d
           | None => d
           end in
  match properties edge with
  | Some p => <["properties" := JObj p]> d
  | None => d
  end.
End Edge.

(** ** What a route returns

    The dictionaries the routes build with a fixed set of keys are records
    of JSON values; [create_node] returns the dictionary it inserted, which
    stays a map. A route is modelled up to the value its function returns;
    [response_model] serialisation happens after that. *)

Module NodeDict.
Record t := mk { id : json; label : json; type : json; properties : json }.
End NodeDict.

Module EdgeDict.
Record t := mk
  { id : json; from_node : json; to_node : json; label : json;
    properties : json }.
End EdgeDict.

Module GraphDict.
Record t := mk { nodes : list NodeDict.t; edges : list EdgeDict.t }.
End GraphDict.

(** A request ends with the value the route returns, or with an error:
    the [HTTPException] the route raises, or the validation error the
    framework raises for a query parameter outside its [Query] bounds. *)
Inductive error :=
  | HTTPException (status_code : Z) (detail : string)
  | RequestValidationError.

Inductive result (A : Type) :=
  | Return (a : A)
  | Raise (e : error).
Arguments Return {A} a.
Arguments Raise {A} e.

(** The status of the response to a failed request. *)
Definition status (e : error) : Z :=
  match e with
  | HTTPException c _ => c
  | RequestValidationError => 422
  end.

(** The spec's taxonomy: validation and not-found errors are client errors
    (4xx), storage errors are server errors (5xx). *)
Definition client_error (e : error) : bool :=
  (400 <=? status e)%Z && (status e <? 500)%Z.
Definition server_error (e : error) : bool :=
  (500 <=? status e)%Z && (status e <? 600)%Z.

(** [Query(default, gt=.., le=..)]: the parameter's value when it passes
    the bounds. *)
Definition Query (default_value gt le : Z) (v : option Z) : option Z :=
  let x := default default_value v in
  if ((gt <? x) && (x <=? le))%Z then Some x else None.

(** [doc.get(key, default)] on a dictionary. *)
Definition dict_get (d : gmap string json) (key : string) (dflt : json) : json :=
  default dflt (d !! key).

(** ** The routes, [backend/app/api/routes/graphs.py] *)

(** The dictionary the read routes build from a document of "nodes". *)
Definition node_dict_of (doc : Arango.Doc.t) : NodeDict.t :=
  {| NodeDict.id := JStr (Arango.Doc._key doc);
     NodeDict.label := dict_get (Arango.Doc.attrs doc) "label" (JStr EmptyString);
     NodeDict.type := dict_get (Arango.Doc.attrs doc) "type" (JStr EmptyString);
     NodeDict.properties := dict_get (Arango.Doc.attrs doc) "properties" (JObj []) |}.

(** The dictionary the read routes build from a document of "edges". *)
Definition edge_dict_of (doc : Arango.EdgeDoc.t) : EdgeDict.t :=
  {| EdgeDict.id := JStr (Arango.EdgeDoc._key doc);
     EdgeDict.from_node := JStr (Arango.EdgeDoc._from doc);
     EdgeDict.to_node := JStr (Arango.EdgeDoc._to doc);
     EdgeDict.label := dict_get (Arango.EdgeDoc.attrs doc) "label" (JStr EmptyString);
     EdgeDict.properties :=
       dict_get (Arango.EdgeDoc.attrs doc) "properties" (JObj []) |}.

(** Lines 17-19 and 94-96: remove [id] if it is [None]. *)
Definition drop_null_id (d : gmap string json) : gmap string json :=
  if decide (d !! "id" = Some JNull) then delete "id" d else d.

(** [POST /nodes/] *)
Definition create_node (node : Node.t) (db : Arango.database)
  : result (gmap string json) * Arango.database :=
  let node_dict := drop_null_id (Node.dict node) in
  match Arango.insert_node node_dict db with
  | inr (key, db') => (Return (<["id" := JStr key]> node_dict), db')
  | inl e =>
      (Raise (HTTPException 500 ("Failed to create node: " +:+ Arango.str e)), db)
  end.

(** [if type:] on an optional string. *)
Definition truthy (s : option string) : bool :=
  match s with
  | Some (String _ _) => true
  | _ => false
  end.

(** [GET /nodes/] *)
Definition get_nodes (type : option string) (limit : option Z)
    (db : Arango.database) : result (list NodeDict.t) :=
  match Query 100 0 1000 limit with
  | None => Raise RequestValidationError
  | Some limit =>
      let cursor :=
        if truthy type
        then Arango.nodes_of_type db (default EmptyString type) limit
        else Arango.nodes_limit db limit in
      Return (node_dict_of <$> cursor)
  end.

(** [GET /nodes/{node_id}] *)
Definition get_node (node_id : string) (db : Arango.database)
  : result NodeDict.t :=
  match Arango.get (Arango.nodes db) node_id with
  | None => Raise (HTTPException 404 "Node not found")
  | Some doc => Return (node_dict_of doc)
  end.

(** Lines 98-100, "convert to ArangoDB format": [from_node] and [to_node]
    are required fields, so the two [pop]s find them. *)
Definition arango_format (edge : Edge.t) (edge_dict : gmap string json)
  : gmap string json :=
  let edge_dict :=
    <["_from" := JStr (Edge.from_node edge)]> (delete "from_node" edge_dict) in
  <["_to" := JStr (Edge.to_node edge)]> (delete "to_node" edge_dict).

(** [POST /edges/] *)
Definition create_edge (edge : Edge.t) (db : Arango.database)
  : result EdgeDict.t * Arango.database :=
  let edge_dict := arango_format edge (drop_null_id (Edge.dict edge)) in
  match Arango.insert_edge edge_dict db with
  | inr (key, db') =>
      (Return {| EdgeDict.id := JStr key;
                 EdgeDict.from_node := dict_get edge_dict "_from" JNull;
                 EdgeDict.to_node := dict_get edge_dict "_to" JNull;
                 EdgeDict.label := dict_get edge_dict "label" (JStr EmptyString);
                 EdgeDict.properties := dict_get edge_dict "properties" (JObj []) |},
       db')
  | inl e =>
      (Raise (HTTPException 500 ("Failed to create edge: " +:+ Arango.str e)), db)
  end.

(** [GET /edges/] *)
Definition get_edges (limit : option Z) (db : Arango.database)
  : result (list EdgeDict.t) :=
  match Query 100 0 1000 limit with
  | None => Raise RequestValidationError
  | Some limit => Return (edge_dict_of <$> Arango.edges_limit db limit)
  end.

(** [GET /] *)
Definition get_graph (limit : option Z) (db : Arango.database)
  : result GraphDict.t :=
  match Query 100 0 1000 limit with
  | None => Raise RequestValidationError
  | Some limit =>
      Return {| GraphDict.nodes := node_dict_of <$> Arango.nodes_limit db limit;
                GraphDict.edges := edge_dict_of <$> Arango.edges_limit db limit |}
  end.

(** Lines 258-277: the rows of the query result have every key, so each
    [get] returns the row's value, [None] included. *)
Definition format_node (node : Arango.NodeRow.t) : NodeDict.t :=
  {| NodeDict.id := Arango.NodeRow._key node;
     NodeDict.label := Arango.NodeRow.label node;
     NodeDict.type := Arango.NodeRow.type node;
     NodeDict.properties := Arango.NodeRow.properties node |}.

Definition format_edge (edge : Arango.EdgeRow.t) : EdgeDict.t :=
  {| EdgeDict.id := Arango.EdgeRow._key edge;
     EdgeDict.from_node := Arango.EdgeRow._from edge;
     EdgeDict.to_node := Arango.EdgeRow._to edge;
     EdgeDict.label := Arango.EdgeRow.label edge;
     EdgeDict.properties := Arango.EdgeRow.properties edge |}.

(** [GET /neighbors/{node_id}] *)
Definition get_node_neighbors (node_id : string) (depth : option Z)
    (db : Arango.database) : result GraphDict.t :=
  match Query 1 0 3 depth with
  | None => Raise RequestValidationError
  | Some depth =>
      if negb (Arango.has (Arango.nodes db) node_id)
      then Raise (HTTPException 404 "Node not found")
      else
        let full_node_id := "nodes/" +:+ node_id in
        let result := Arango.neighborhood db full_node_id depth in
        Return {| GraphDict.nodes := format_node <$> result.1;
                  GraphDict.edges := format_edge <$> result.2 |}
  end.

(** ** Opening the database, [backend/app/db/database.py]

    [get_db] runs before every route. It talks to the server through the
    driver only, so the server is modelled as far as [get_db] looks at it:
    the databases by name, and in each the collections and the graphs by
    name. A [create_...] call of the driver raises when the thing exists,
    and a graph call raises on a collection of the wrong kind; here it
    returns [None]. *)

(** The settings [get_db] reads, [backend/app/config.py]. *)
Module Settings.
Record t := mk
  { ARANGO_HOST : string;
    ARANGO_PORT : Z;
    ARANGO_DB : string;
    ARANGO_USER : string;
    ARANGO_PASSWORD : string }.
End Settings.

Module Server.

Record user := User { username : string; password : string; active : bool }.

(** A collection: whether it is an edge collection, and its documents. *)
Record collection := Collection
  { edge : bool; documents : list (gmap string json) }.

Record edge_definition := EdgeDefinition
  { edge_collection : string;
    from_vertex_collections : list string;
    to_vertex_collections : list string }.

(** A named graph: its edge definitions, and the vertex collections no
    edge definition uses. *)
Record graph := Graph
  { orphan_collections : list string;
    edge_definitions : list edge_definition }.

Record database := Database
  { users : list user;
    collections : gmap string collection;
    graphs : gmap string graph }.

Record t := Server { databases : gmap string database }.

(** [sys_db.has_database(name)], [sys_db.create_database(name, users)] *)
Definition has_database (srv : t) (name : string) : bool :=
  bool_decide (is_Some (databases srv !! name)).

Definition create_database (srv : t) (name : string) (us : list user)
  : option t :=
  if has_database srv name then None
  else Some (Server (<[name := Database us ∅ ∅]> (databases srv))).

(** [db.has_collection(name)], [db.create_collection(name, edge=...)] *)
Definition has_collection (db : database) (name : string) : bool :=
  bool_decide (is_Some (collections db !! name)).

Definition create_collection (db : database) (name : string) (is_edge : bool)
  : option database :=
  if has_collection db name then None
  else Some (Database (users db)
               (<[name := Collection is_edge []]> (collections db))
               (graphs db)).

(** A collection a graph operation needs is created when it is missing. *)
Definition ensure_collection (name : string) (is_edge : bool)
    (cs : gmap string collection) : gmap string collection :=
  match cs !! name with
  | Some _ => cs
  | None => <[name := Collection is_edge []]> cs
  end.

(** [db.has_graph(name)], [db.create_graph(name)]: a graph without edge
    definitions or vertex collections. *)
Definition has_graph (db : database) (name : string) : bool :=
  bool_decide (is_Some (graphs db !! name)).

Definition create_graph (db : database) (name : string) : option database :=
  if has_graph db name then None
  else Some (Database (users db) (collections db)
               (<[name := Graph [] []]> (graphs db))).

(** The vertex collections of a graph: the orphans and the ends of its
    edge definitions. *)
Definition vertex_collections (g : graph) : list string :=
  orphan_collections g
  ++ (edge_definitions g ≫= λ d,
        from_vertex_collections d ++ to_vertex_collections d).

(** [graph.has_vertex_collection(name)],
    [graph.create_vertex_collection(name)] on the graph [gname]. *)
Definition has_vertex_collection (db : database) (gname name : string) : bool :=
  match graphs db !! gname with
  | Some g => bool_decide (name ∈ vertex_collections g)
  | None => false
  end.

(** The collection [name] exists and is of the given kind. *)
Definition is_kind (cs : gmap string collection) (name : string)
    (is_edge : bool) : bool :=
  match cs !! name with
  | Some c => Bool.eqb (edge c) is_edge
  | None => false
  end.

(** An edge collection cannot be a vertex collection of a graph. *)
Definition create_vertex_collection (db : database) (gname name : string)
  : option database :=
  g ← graphs db !! gname;
  if bool_decide (name ∈ vertex_collections g) then None
  else if is_kind (collections db) name true then None
  else Some (Database (users db)
               (ensure_collection name false (collections db))
               (<[gname := Graph (orphan_collections g ++ [name])
                             (edge_definitions g)]> (graphs db))).

(** [graph.has_edge_definition(name)],
    [graph.create_edge_definition(...)]: the collection of the definition
    must not be a document collection, nor its ends edge collections; the
    ends stop being orphans. *)
Definition has_edge_definition (db : database) (gname name : string) : bool :=
  match graphs db !! gname with
  | Some g => bool_decide (name ∈ edge_collection <$> edge_definitions g)
  | None => false
  end.

Definition create_edge_definition (db : database) (gname : string)
    (d : edge_definition) : option database :=
  g ← graphs db !! gname;
  let ends := from_vertex_collections d ++ to_vertex_collections d in
  if bool_decide (edge_collection d ∈ edge_collection <$> edge_definitions g)
  then None
  else if is_kind (collections db) (edge_collection d) false then None
  else if existsb (λ c, is_kind (collections db) c true) ends then None
  else
    Some (Database (users db)
            (foldr (λ c, ensure_collection c false)
               (ensure_collection (edge_collection d) true (collections db))
               ends)
            (<[gname := Graph (filter (λ c, c ∉ ends) (orphan_collections g))
                          (edge_definitions g ++ [d])]> (graphs db))).

End Server.

(** [get_db()]: the server afterwards; the handle it returns is the
    database [settings.ARANGO_DB] of that server. [None] is an exception
    of a [create_...] call; what the calls before it did to the server is
    then not modelled. *)
Definition get_db (settings : Settings.t) (srv : Server.t) : option Server.t :=
  let name := Settings.ARANGO_DB settings in
  srv ← (if negb (Server.has_database srv name)
         then Server.create_database srv name
                [Server.User (Settings.ARANGO_USER settings)
                   (Settings.ARANGO_PASSWORD settings) true]
         else Some srv);
  db ← Server.databases srv !! name;
  db ← (if negb (Server.has_collection db "nodes")
        then Server.create_collection db "nodes" false
        else Some db);
  db ← (if negb (Server.has_collection db "edges")
        then Server.create_collection db "edges" true
        else Some db);
  db ← (if negb (Server.has_graph db "webgraph")
        then
          db ← Server.create_graph db "webgraph";
          db ← (if negb (Server.has_vertex_collection db "webgraph" "nodes")
                then Server.create_vertex_collection db "webgraph" "nodes"
                else Some db);
          if negb (Server.has_edge_definition db "webgraph" "edges")
          then Server.create_edge_definition db "webgraph"
                 (Server.EdgeDefinition "edges" ["nodes"] ["nodes"])
          else Some db
        else Some db);
  Some (Server.Server (<[name := db]> (Server.databases srv))).

(** The graph [get_db] defines: the edges of "edges" run from "nodes" to
    "nodes". *)
Definition webgraph : Server.graph :=
  Server.Graph [] [Server.EdgeDefinition "edges" ["nodes"] ["nodes"]].

(** What [get_db] makes of the application database, in closed form:
    the two collections are added where missing, and the graph is defined
    only when there is none of that name. *)
Definition set_up (db : Server.database) : Server.database :=
  Server.Database (Server.users db)
    (Server.ensure_collection "edges" true
       (Server.ensure_collection "nodes" false (Server.collections db)))
    (match Server.graphs db !! "webgraph" with
     | Some _ => Server.graphs db
     | None => <["webgraph" := webgraph]> (Server.graphs db)
     end).

(** Whether the graph step of [get_db] goes through on a database: the
    graph is there already, or "nodes" is no edge collection and "edges"
    no document collection. *)
Definition graph_definable (db : Server.database) : bool :=
  match Server.graphs db !! "webgraph" with
  | Some _ => true
  | None =>
      negb (Server.is_kind (Server.collections db) "nodes" true)
      && negb (Server.is_kind (Server.collections db) "edges" false)
  end.

(** Whether [get_db] goes through on a server: it has no application
    database yet, or one on which the graph step goes through. *)
Definition can_open (settings : Settings.t) (srv : Server.t) : bool :=
  match Server.databases srv !! Settings.ARANGO_DB settings with
  | Some db => graph_definable db
  | None => true
  end.

(** A database whose "edges" is a document collection and which has no
    graph. *)
Definition blocked_server : Server.t :=
  Server.Server
    (<["webgraphy" :=
         Server.Database []
           (<["edges" := Server.Collection false []]> ∅) ∅]> ∅).

(** Default settings, and a server that holds another database. *)
Definition default_settings : Settings.t :=
  Settings.mk "localhost" 8529 "webgraphy" "root" EmptyString.
Definition other_server : Server.t :=
  Server.Server
    (<["_system" := Server.Database [] ∅ ∅]> ∅).

(** The application database [get_db] creates on a server that has none:
    the configured user, the two empty collections and the graph. *)
Definition new_database (settings : Settings.t) : Server.database :=
  Server.Database
    [Server.User (Settings.ARANGO_USER settings)
       (Settings.ARANGO_PASSWORD settings) true]
    (<["edges" := Server.Collection true []]>
       (<["nodes" := Server.Collection false []]> ∅))
    (<["webgraph" := webgraph]> ∅).

(** A database whose "edges" is a document collection holding a document,
    and whose graph "webgraph" has no edge definition. *)
Definition odd_database : Server.database :=
  Server.Database []
    (<["edges" := Server.Collection false [{["label" := JStr "KNOWS"]}]]> ∅)
    (<["webgraph" := Server.Graph [] []]> ∅).
Definition odd_server : Server.t :=
  Server.Server (<["webgraphy" := odd_database]> ∅).

(** ** Stores built through the routes *)

(** The store after a creation request, whatever the request returned. *)
Definition after_node (node : Node.t) (db : Arango.database) : Arango.database :=
  (create_node node db).2.
Definition after_edge (edge : Edge.t) (db : Arango.database) : Arango.database :=
  (create_edge edge db).2.

Definition page (label : string) : Node.t :=
  Node.mk None label "page" (Some [("title", JStr label)]).
Definition link (label from_node to_node : string) : Edge.t :=
  Edge.mk None from_node to_node label (Some []).

(** Nodes A, B, C (keys 1, 2, 3) with the edges A→B and B→C (keys 4, 5),
    both labelled LINKS. *)
Definition store_ABC : Arango.database :=
  after_edge (link "LINKS" "nodes/2" "nodes/3")
    (after_edge (link "LINKS" "nodes/1" "nodes/2")
       (after_node (page "C")
          (after_node (page "B") (after_node (page "A") Arango.empty)))).

(** Nodes A, B (keys 1, 2) with the edges A→B and B→A (keys 3, 4). *)
Definition store_cycle : Arango.database :=
  after_edge (link "BACK" "nodes/2" "nodes/1")
    (after_edge (link "LINKS" "nodes/1" "nodes/2")
       (after_node (page "B") (after_node (page "A") Arango.empty))).

(** A node with one property, and a node whose request names its own id. *)
Definition node_X : Node.t :=
  Node.mk None "X" "person" (Some [("name", JStr "X")]).
Definition node_with_id : Node.t :=
  Node.mk (Some (Some "mine")) "X" "person" None.

(** A node with a label and a type and nothing else. *)
Definition node_bare : Node.t := Node.mk None "X" "person" None.

(** An edge between two handles that name no node. *)
Definition dangling_edge : Edge.t :=
  Edge.mk None "nodes/ghost" "nodes/phantom" "KNOWS" None.

(** The entries of [store_ABC] as the routes return them. *)
Definition entry_A : NodeDict.t :=
  NodeDict.mk (JStr "1") (JStr "A") (JStr "page") (JObj [("title", JStr "A")]).
Definition entry_B : NodeDict.t :=
  NodeDict.mk (JStr "2") (JStr "B") (JStr "page") (JObj [("title", JStr "B")]).
Definition entry_C : NodeDict.t :=
  NodeDict.mk (JStr "3") (JStr "C") (JStr "page") (JObj [("title", JStr "C")]).
Definition entry_AB : EdgeDict.t :=
  EdgeDict.mk (JStr "4") (JStr "nodes/1") (JStr "nodes/2") (JStr "LINKS") (JObj []).
Definition entry_BC : EdgeDict.t :=
  EdgeDict.mk (JStr "5") (JStr "nodes/2") (JStr "nodes/3") (JStr "LINKS") (JObj []).

(** The ids of the nodes of a returned graph, in order. *)
Definition node_ids (g : GraphDict.t) : list json :=
  NodeDict.id <$> GraphDict.nodes g.

(** No edge of the store has the node at either end. *)
Definition isolated (db : Arango.database) (node_id : string) : Prop :=
  ∀ e, e ∈ Arango.edges db →
    Arango.EdgeDoc._from e ≠ "nodes/" +:+ node_id
    ∧ Arango.EdgeDoc._to e ≠ "nodes/" +:+ node_id.

(** The primary index of each collection: no two documents share a key. *)
Definition well_keyed (db : Arango.database) : Prop :=
  NoDup (Arango.Doc._key <$> Arango.nodes db)
  ∧ NoDup (Arango.EdgeDoc._key <$> Arango.edges db).

(** The handle of a node of the collection "nodes", as
    [get_node_neighbors] builds it (line 202). *)
Definition handle (node_id : string) : string := "nodes/" +:+ node_id.

(** The entry of the node a handle names, in the result of the
    neighborhood query: all null when the handle names no document. *)
Definition entry_at (db : Arango.database) (h : string) : NodeDict.t :=
  format_node (Arango.NodeRow.of_vertex (Arango.DOCUMENT db h)).

(** The entry of a stored edge in the result of the neighborhood query. *)
Definition edge_entry (e : Arango.EdgeDoc.t) : EdgeDict.t :=
  format_edge (Arango.EdgeRow.of_edge (Some e)).

(** The stores the routes build: the empty store, and every store a
    creation request leaves behind. *)
Inductive built : Arango.database → Prop :=
  | built_empty : built Arango.empty
  | built_node node db : built db → built (after_node node db)
  | built_edge edge db : built db → built (after_edge edge db).

(** Every key of the store was generated from a tick the server has
    passed. *)
Definition keys_from_tick (db : Arango.database) : Prop :=
  (∀ k, k ∈ Arango.Doc._key <$> Arango.nodes db →
        ∃ n : N, (n ≤ Arango.tick db)%N ∧ k = pretty n)
  ∧ (∀ k, k ∈ Arango.EdgeDoc._key <$> Arango.edges db →
          ∃ n : N, (n ≤ Arango.tick db)%N ∧ k = pretty n).

(** The shape of the documents the creation routes store: a node holds a
    string label and a string type; the ends of an edge are well-formed
    handles and it holds a string label. *)
Definition stored_shape (db : Arango.database) : Prop :=
  (∀ d, d ∈ Arango.nodes db →
        (∃ l, Arango.Doc.attrs d !! "label" = Some (JStr l))
        ∧ (∃ t, Arango.Doc.attrs d !! "type" = Some (JStr t)))
  ∧ (∀ e, e ∈ Arango.edges db →
          Arango.valid_handle (Arango.EdgeDoc._from e) = true
          ∧ Arango.valid_handle (Arango.EdgeDoc._to e) = true
          ∧ ∃ l, Arango.EdgeDoc.attrs e !! "label" = Some (JStr l)).

(** * Properties *)

(** ** The store *)

Section collection.
Import Arango.

Lemma get_Some_key coll key d : get coll key = Some d → Doc._key d = key.
Proof.
  unfold get. intros H. apply find_some in H as [_ H].
  by apply bool_decide_eq_true in H.
Qed.

Lemma get_Some_elem coll key d : get coll key = Some d → d ∈ coll.
Proof.
  unfold get. intros H. apply find_some in H as [H _].
  by apply list_elem_of_In.
Qed.

Lemma has_true_get coll key : has coll key = true ↔ is_Some (get coll key).
Proof.
  unfold has, get. rewrite bool_decide_eq_true. induction coll as [| d coll IH]; simpl.
  - rewrite elem_of_nil. split; [done | by intros [? ?]].
  - rewrite elem_of_cons. case_bool_decide as E.
    + split; [by eexists | by left].
    + rewrite <- IH. split; [intros [-> | ?]; done | by right].
Qed.

Lemma has_false_get coll key : has coll key = false ↔ get coll key = None.
Proof.
  rewrite <- not_true_iff_false, has_true_get, <- eq_None_not_Some. done.
Qed.

(** A document appended under a key the collection does not hold is the
    one [get] finds. *)
Lemma get_app_fresh coll d :
  has coll (Doc._key d) = false → get (coll ++ [d]) (Doc._key d) = Some d.
Proof.
  unfold has, get. rewrite bool_decide_eq_false.
  induction coll as [| d' coll IH]; simpl; intros H.
  - by rewrite bool_decide_eq_true_2.
  - rewrite not_elem_of_cons in H. destruct H as [Hne H].
    rewrite bool_decide_eq_false_2 by congruence. by apply IH.
Qed.

(** Looking a node up by its handle is looking it up by its key. *)
Lemma DOCUMENT_handle db key :
  DOCUMENT db ("nodes/" +:+ key) = get (nodes db) key.
Proof.
  unfold DOCUMENT, get. induction (nodes db) as [| d coll IH]; simpl; [done |].
  rewrite IH. unfold Doc._id.
  destruct (decide (Doc._key d = key)) as [-> | Hne].
  - by rewrite !bool_decide_eq_true_2.
  - rewrite !bool_decide_eq_false_2; [done | done |].
    intros H. simpl in H. by simplify_eq.
Qed.

Lemma elem_of_distinct {A} `{EqDecision A} (l : list A) x :
  x ∈ distinct l ↔ x ∈ l.
Proof.
  induction l as [| y l IH]; simpl; [done |].
  rewrite !elem_of_cons, list_elem_of_filter, IH.
  destruct (decide (x = y)); tauto.
Qed.

Lemma NoDup_distinct {A} `{EqDecision A} (l : list A) : NoDup (distinct l).
Proof.
  induction l as [| y l IH]; simpl; [constructor |].
  apply NoDup_cons. split.
  - rewrite list_elem_of_filter. by intros [? _].
  - by apply NoDup_filter.
Qed.

(** A deeper traversal emits every row of a shallower one. *)
Lemma paths_mono E depth cur used x :
  x ∈ paths E depth cur used → x ∈ paths E (S depth) cur used.
Proof.
  revert cur used. induction depth as [| d IH]; intros cur used.
  - simpl. by rewrite elem_of_nil.
  - change (paths E (S d) cur used) with
      (E ≫= λ e, match other_end cur e with
                 | Some v =>
                     if decide (EdgeDoc._key e ∈ used) then []
                     else (v, e) :: paths E d v (EdgeDoc._key e :: used)
                 | None => []
                 end).
    rewrite list_elem_of_bind. intros (e & Hx & He).
    change (paths E (S (S d)) cur used) with
      (E ≫= λ e, match other_end cur e with
                 | Some v =>
                     if decide (EdgeDoc._key e ∈ used) then []
                     else (v, e) :: paths E (S d) v (EdgeDoc._key e :: used)
                 | None => []
                 end).
    rewrite list_elem_of_bind. exists e. split; [| done].
    destruct (other_end cur e) as [v |]; [| done].
    destruct (decide (EdgeDoc._key e ∈ used)); [done |].
    rewrite elem_of_cons in Hx. rewrite elem_of_cons.
    destruct Hx as [-> | Hx]; [by left | right; by apply IH].
Qed.

(** A vertex with no edge at either end has no path out of it. *)
Lemma paths_isolated E depth cur used :
  (∀ e, e ∈ E → EdgeDoc._from e ≠ cur ∧ EdgeDoc._to e ≠ cur) →
  paths E depth cur used = [].
Proof.
  intros H. destruct depth as [| d]; [done |]. simpl.
  assert (∀ l : list EdgeDoc.t, (∀ e, e ∈ l → e ∈ E) →
            l ≫= (λ e, match other_end cur e with
                       | Some v =>
                           if decide (EdgeDoc._key e ∈ used) then []
                           else (v, e) :: paths E d v (EdgeDoc._key e :: used)
                       | None => []
                       end) = []) as Hall.
  { induction l as [| e l IH]; intros Hl; [done |].
    rewrite bind_cons, IH by (intros; apply Hl; by right).
    destruct (H e (Hl e ltac:(by left))) as [Hf Ht].
    unfold other_end. by rewrite !decide_False. }
  by apply Hall.
Qed.

(** The rows of reached vertices have distinct keys: two rows with the
    same [_key] come from the same document, or are both [null]. *)
Lemma of_vertex_key_inj db h1 h2 :
  NodeRow._key (NodeRow.of_vertex (DOCUMENT db h1))
  = NodeRow._key (NodeRow.of_vertex (DOCUMENT db h2)) →
  NodeRow.of_vertex (DOCUMENT db h1) = NodeRow.of_vertex (DOCUMENT db h2).
Proof.
  destruct (DOCUMENT db h1) as [d1 |] eqn:E1, (DOCUMENT db h2) as [d2 |] eqn:E2;
    simpl; try done.
  intros [= Hk]. unfold DOCUMENT in E1, E2.
  destruct (find_some _ _ E1) as [_ F1]. destruct (find_some _ _ E2) as [_ F2].
  apply bool_decide_eq_true in F1. apply bool_decide_eq_true in F2.
  unfold Doc._id in F1, F2. rewrite Hk, F2 in F1. subst h2.
  rewrite E1 in E2. by simplify_eq.
Qed.
End collection.

(** ** Query parameters and the listing routes *)

Lemma Query_in_range default_value gt le v :
  (gt < v ≤ le)%Z → Query default_value gt le (Some v) = Some v.
Proof.
  intros [H1 H2]. unfold Query. simpl.
  apply Z.ltb_lt in H1. apply Z.leb_le in H2. by rewrite H1, H2.
Qed.

Lemma Query_out_of_range default_value gt le v :
  ¬ (gt < v ≤ le)%Z → Query default_value gt le (Some v) = None.
Proof.
  intros H. unfold Query. simpl.
  destruct (gt <? v)%Z eqn:H1, (v <=? le)%Z eqn:H2; try done.
  apply Z.ltb_lt in H1. apply Z.leb_le in H2. lia.
Qed.

Lemma Query_bounds default_value gt le v x :
  Query default_value gt le v = Some x → (gt < x ≤ le)%Z.
Proof.
  unfold Query.
  destruct (gt <? default default_value v)%Z eqn:H1,
           (default default_value v <=? le)%Z eqn:H2; simpl; try done.
  intros [= <-]. apply Z.ltb_lt in H1. apply Z.leb_le in H2. done.
Qed.

(** A listing never returns more entries than the limit it ran with. *)
Lemma get_nodes_at_most_limit type limit db l :
  get_nodes type limit db = Return l →
  ∃ n, Query 100 0 1000 limit = Some n ∧ (Z.of_nat (length l) ≤ n ≤ 1000)%Z.
Proof.
  unfold get_nodes. destruct (Query 100 0 1000 limit) as [n |] eqn:Q; [| done].
  intros [= <-]. exists n. split; [done |].
  apply Query_bounds in Q. rewrite length_fmap.
  destruct (truthy type);
    unfold Arango.nodes_of_type, Arango.nodes_limit; rewrite length_take; lia.
Qed.

Lemma get_edges_at_most_limit limit db l :
  get_edges limit db = Return l →
  ∃ n, Query 100 0 1000 limit = Some n ∧ (Z.of_nat (length l) ≤ n ≤ 1000)%Z.
Proof.
  unfold get_edges. destruct (Query 100 0 1000 limit) as [n |] eqn:Q; [| done].
  intros [= <-]. exists n. split; [done |].
  apply Query_bounds in Q. rewrite length_fmap.
  unfold Arango.edges_limit. rewrite length_take. lia.
Qed.

(** C4: the listing routes have one policy for a limit outside (0, 1000]:
    the request is rejected. For every such limit, [get_nodes] (with or
    without a type filter) and [get_edges] both end in the framework's
    validation error, a client error, and return no entity at all; so
    limit=2000 never returns more than 1000 entities. *)
Theorem C4_limit_outside_range_is_rejected
    (limit : Z) (type : option string) (db : Arango.database) :
  ¬ (0 < limit ≤ 1000)%Z →
  get_nodes type (Some limit) db = Raise RequestValidationError
  ∧ get_edges (Some limit) db = Raise RequestValidationError
  ∧ client_error RequestValidationError = true.
Proof.
  intros H. unfold get_nodes, get_edges.
  rewrite (Query_out_of_range 100 0 1000 limit H). done.
Qed.

Lemma C4_limit_2000_witness :
  get_nodes None (Some 2000%Z) store_ABC = Raise RequestValidationError
  ∧ get_edges (Some 2000%Z) store_ABC = Raise RequestValidationError
  ∧ client_error RequestValidationError = true.
Proof. apply (C4_limit_outside_range_is_rejected 2000 None store_ABC). lia. Defined.

(** C10: an empty type string is no filter. [get_nodes] with type set to
    the empty string returns what it returns with the type omitted, for
    every store and limit; with a limit in range that is the first [limit]
    nodes of the collection, whatever their type. *)
Theorem C10_empty_type_is_no_filter (limit : option Z) (db : Arango.database) :
  get_nodes (Some EmptyString) limit db = get_nodes None limit db
  ∧ ∀ n, Query 100 0 1000 limit = Some n →
      get_nodes (Some EmptyString) limit db
      = Return (node_dict_of <$> take (Z.to_nat n) (Arango.nodes db)).
Proof.
  split; [done |]. intros n Q. unfold get_nodes. by rewrite Q.
Qed.

Lemma C10_empty_type_witness :
  get_nodes (Some EmptyString) (Some 2%Z) store_ABC
  = Return (node_dict_of <$> take 2 (Arango.nodes store_ABC)).
Proof.
  apply (proj2 (C10_empty_type_is_no_filter (Some 2%Z) store_ABC) 2%Z).
  reflexivity.
Defined.

(** ** Neighborhood expansion: the start node *)

(** C8: expanding from an id that names no stored node fails with 404
    "Node not found", a client error and not a server error, for every
    depth in [1,3] and whatever edges the store holds: the check comes
    before the traversal and no graph is returned. *)
Theorem C8_unknown_start_is_not_found
    (node_id : string) (depth : Z) (db : Arango.database) :
  node_id ∉ Arango.Doc._key <$> Arango.nodes db →
  (1 ≤ depth ≤ 3)%Z →
  get_node_neighbors node_id (Some depth) db
  = Raise (HTTPException 404 "Node not found")
  ∧ client_error (HTTPException 404 "Node not found") = true
  ∧ server_error (HTTPException 404 "Node not found") = false.
Proof.
  intros Hno Hd. unfold get_node_neighbors.
  rewrite Query_in_range by lia.
  unfold Arango.has. by rewrite bool_decide_eq_false_2.
Qed.

Lemma C8_unknown_start_witness :
  get_node_neighbors "nonexistent" (Some 1%Z) store_ABC
  = Raise (HTTPException 404 "Node not found")
  ∧ client_error (HTTPException 404 "Node not found") = true
  ∧ server_error (HTTPException 404 "Node not found") = false.
Proof.
  apply (C8_unknown_start_is_not_found "nonexistent" 1 store_ABC).
  - refine (proj1 (bool_decide_eq_false _) _). vm_compute. reflexivity.
  - lia.
Defined.

(** ** Creating nodes and edges *)

(** What [create_node] hands to [insert]: the fields the body set, minus a
    null [id]. *)
Lemma node_dict_label node :
  drop_null_id (Node.dict node) !! "label" = Some (JStr (Node.label node)).
Proof. by destruct node as [[[i |] |] l t [p |]]. Qed.

Lemma node_dict_type node :
  drop_null_id (Node.dict node) !! "type" = Some (JStr (Node.type node)).
Proof. by destruct node as [[[i |] |] l t [p |]]. Qed.

Lemma node_dict_properties node :
  drop_null_id (Node.dict node) !! "properties" = JObj <$> Node.properties node.
Proof. by destruct node as [[[i |] |] l t [p |]]. Qed.

Lemma node_dict_id node :
  drop_null_id (Node.dict node) !! "id" = JStr <$> mjoin (Node.id node).
Proof. by destruct node as [[[i |] |] l t [p |]]. Qed.

(** [create_node] succeeds exactly when the generated key is free, and then
    appends one document under that key. *)
Lemma create_node_inv node db ret db' :
  create_node node db = (Return ret, db') →
  Arango.has (Arango.nodes db) (Arango.next_key db) = false
  ∧ ret = <["id" := JStr (Arango.next_key db)]> (drop_null_id (Node.dict node))
  ∧ Arango.nodes db'
    = Arango.nodes db
        ++ [Arango.Doc.mk (Arango.next_key db) (drop_null_id (Node.dict node))]
  ∧ Arango.edges db' = Arango.edges db.
Proof.
  unfold create_node, Arango.insert_node.
  destruct (Arango.has _ _) eqn:Hhas; [done |].
  by intros [= <- <-].
Qed.

(** C9: a node that [create_node] inserted is read back by [get_node]
    under the id the insert returned, with the label, the type and the
    properties map of the request, unchanged (an omitted properties map
    reads back as the empty map, the model's default). *)
Theorem C9_insert_get_round_trip
    (node : Node.t) (db db' : Arango.database) (ret : gmap string json) :
  create_node node db = (Return ret, db') →
  ∃ key, ret !! "id" = Some (JStr key)
    ∧ get_node key db'
      = Return {| NodeDict.id := JStr key;
                  NodeDict.label := JStr (Node.label node);
                  NodeDict.type := JStr (Node.type node);
                  NodeDict.properties := JObj (Node.properties_value node) |}.
Proof.
  intros H. apply create_node_inv in H as (Hfresh & -> & Hnodes & _).
  exists (Arango.next_key db). split; [by rewrite lookup_insert_eq |].
  unfold get_node. rewrite Hnodes.
  pose proof (get_app_fresh (Arango.nodes db)
                (Arango.Doc.mk (Arango.next_key db) (drop_null_id (Node.dict node))))
    as Hget.
  simpl in Hget. rewrite Hget by done.
  unfold node_dict_of, dict_get. simpl.
  rewrite node_dict_label, node_dict_type, node_dict_properties.
  unfold Node.properties_value. by destruct (Node.properties node).
Qed.

Lemma C9_round_trip_witness :
  ∃ key,
    (<["id" := JStr "1"]> (Node.dict node_X) : gmap string json) !! "id"
    = Some (JStr key)
    ∧ get_node key (after_node node_X Arango.empty)
      = Return {| NodeDict.id := JStr key;
                  NodeDict.label := JStr "X";
                  NodeDict.type := JStr "person";
                  NodeDict.properties := JObj [("name", JStr "X")] |}.
Proof.
  apply (C9_insert_get_round_trip node_X Arango.empty
           (after_node node_X Arango.empty)
           (<["id" := JStr "1"]> (Node.dict node_X))).
  vm_compute. reflexivity.
Defined.

(** C3, at the failing input: a request that names its own id. The route
    keeps the id in the dictionary it inserts and then overwrites it with
    the generated key: the returned node carries the key, not the id of
    the request, and no node is stored under that id. *)
Lemma C3_supplied_id_is_not_kept :
  mjoin (Node.id node_with_id) = Some "mine"
  ∧ ∃ ret db',
      create_node node_with_id Arango.empty = (Return ret, db')
      ∧ ret !! "id" = Some (JStr "1")
      ∧ ret !! "id" ≠ Some (JStr "mine")
      ∧ Arango.Doc._key <$> Arango.nodes db' = ["1"]
      ∧ get_node "mine" db' = Raise (HTTPException 404 "Node not found").
Proof.
  split; [done |].
  eexists _, _. split; [vm_compute; reflexivity |].
  repeat split; done.
Qed.

(** What [create_edge] hands to [insert]. *)
Lemma edge_dict_from edge :
  arango_format edge (drop_null_id (Edge.dict edge)) !! "_from"
  = Some (JStr (Edge.from_node edge)).
Proof. by destruct edge as [[[i |] |] f t l [p |]]. Qed.

Lemma edge_dict_to edge :
  arango_format edge (drop_null_id (Edge.dict edge)) !! "_to"
  = Some (JStr (Edge.to_node edge)).
Proof. by destruct edge as [[[i |] |] f t l [p |]]. Qed.

(** C2, as stated, fails: an edge between two handles that name no stored
    node is created and stored. *)
Lemma C2_dangling_edge_is_stored :
  Arango.DOCUMENT store_ABC (Edge.from_node dangling_edge) = None
  ∧ Arango.DOCUMENT store_ABC (Edge.to_node dangling_edge) = None
  ∧ ∃ out db',
      create_edge dangling_edge store_ABC = (Return out, db')
      ∧ EdgeDict.from_node out = JStr "nodes/ghost"
      ∧ EdgeDict.to_node out = JStr "nodes/phantom"
      ∧ (λ e, (Arango.EdgeDoc._from e, Arango.EdgeDoc._to e)) <$> Arango.edges db'
        = [("nodes/1", "nodes/2"); ("nodes/2", "nodes/3");
           ("nodes/ghost", "nodes/phantom")].
Proof.
  split; [done |]. split; [done |].
  eexists _, _. split; [vm_compute; reflexivity |].
  repeat split; done.
Qed.

(** C2, amended: [create_edge] does not look the endpoints up: what it
    returns and the edges it leaves are the same whatever nodes are
    stored, and it never touches the nodes. When the store's insert
    raises, the request fails with a server error (500) and the store is
    unchanged; otherwise exactly one edge is stored, with the endpoints as
    given, which are also the endpoints of the returned edge. *)
Theorem C2_create_edge_does_not_look_up_nodes
    (edge : Edge.t) (db : Arango.database) (nodes' : list Arango.Doc.t) :
  let db2 := Arango.Database nodes' (Arango.edges db) (Arango.tick db) in
  (create_edge edge db2).1 = (create_edge edge db).1
  ∧ Arango.edges (create_edge edge db2).2 = Arango.edges (create_edge edge db).2
  ∧ Arango.nodes (create_edge edge db).2 = Arango.nodes db
  ∧ match (create_edge edge db).1 with
    | Raise e =>
        status e = 500%Z ∧ server_error e = true
        ∧ (create_edge edge db).2 = db
    | Return out =>
        ∃ doc,
          Arango.edges (create_edge edge db).2 = Arango.edges db ++ [doc]
          ∧ Arango.EdgeDoc._from doc = Edge.from_node edge
          ∧ Arango.EdgeDoc._to doc = Edge.to_node edge
          ∧ EdgeDict.from_node out = JStr (Edge.from_node edge)
          ∧ EdgeDict.to_node out = JStr (Edge.to_node edge)
    end.
Proof.
  unfold create_edge, Arango.insert_edge, dict_get.
  rewrite edge_dict_from, edge_dict_to. simpl.
  destruct (Arango.valid_handle (Edge.from_node edge)
            && Arango.valid_handle (Edge.to_node edge)); simpl.
  - destruct (bool_decide _); simpl.
    + repeat split.
    + repeat split. eexists. repeat split.
  - repeat split.
Qed.

(** ** Neighborhood expansion: the result *)

(** The graph [get_node_neighbors] returns for a stored start node. *)
Lemma get_node_neighbors_stored node_id depth db doc :
  Arango.get (Arango.nodes db) node_id = Some doc →
  (1 ≤ depth ≤ 3)%Z →
  get_node_neighbors node_id (Some depth) db
  = Return
      {| GraphDict.nodes :=
           format_node (Arango.NodeRow.of_vertex (Some doc))
           :: (format_node <$>
                 Arango.distinct
                   ((λ n, Arango.NodeRow.of_vertex n.1)
                      <$> Arango.traversal db ("nodes/" +:+ node_id)
                            (Z.to_nat depth)));
         GraphDict.edges :=
           format_edge <$>
             Arango.distinct
               ((λ n, Arango.EdgeRow.of_edge n.2)
                  <$> filter (λ n, n.2 ≠ None)
                        (Arango.traversal db ("nodes/" +:+ node_id)
                           (Z.to_nat depth))) |}.
Proof.
  intros Hget Hd. unfold get_node_neighbors.
  rewrite Query_in_range by lia.
  assert (Arango.has (Arango.nodes db) node_id = true) as ->.
  { apply has_true_get. by eexists. }
  unfold Arango.neighborhood. by rewrite DOCUMENT_handle, Hget.
Qed.

(** When the document holds the three attributes, the row of the start
    node is the dictionary [get_node] builds; an attribute the document
    lacks is null in the row and a default in the dictionary. *)
Lemma start_row_is_node_dict doc :
  (∀ a, a ∈ ["label"; "type"; "properties"] →
        is_Some (Arango.Doc.attrs doc !! a)) →
  format_node (Arango.NodeRow.of_vertex (Some doc)) = node_dict_of doc.
Proof.
  intros H. unfold format_node, node_dict_of, dict_get. simpl.
  unfold Arango.Doc.attr.
  destruct (H "label") as [? ->]; [set_solver |].
  destruct (H "type") as [? ->]; [set_solver |].
  destruct (H "properties") as [? ->]; [set_solver |]. done.
Qed.

(** X21: for a stored start node and a depth in [1,3],
    [get_node_neighbors] returns a graph whose first node has the
    requested id and the label, type and properties the query projects
    from the document (null for an attribute the document lacks), so that
    it is the node [get_node] returns when the document holds all three.
    When no edge has the start node at either end, the graph is that one
    node and no edge. *)
Theorem start_node_is_first
    (node_id : string) (depth : Z) (db : Arango.database) (doc : Arango.Doc.t) :
  Arango.get (Arango.nodes db) node_id = Some doc →
  (1 ≤ depth ≤ 3)%Z →
  ∃ g start rest,
    get_node_neighbors node_id (Some depth) db = Return g
    ∧ GraphDict.nodes g = start :: rest
    ∧ NodeDict.id start = JStr node_id
    ∧ NodeDict.label start = Arango.Doc.attr doc "label"
    ∧ NodeDict.type start = Arango.Doc.attr doc "type"
    ∧ NodeDict.properties start = Arango.Doc.attr doc "properties"
    ∧ ((∀ a, a ∈ ["label"; "type"; "properties"] →
             is_Some (Arango.Doc.attrs doc !! a)) →
       get_node node_id db = Return start)
    ∧ (isolated db node_id →
       g = {| GraphDict.nodes := [start]; GraphDict.edges := [] |}).
Proof.
  intros Hget Hd. eexists _, _, _.
  split; [by apply get_node_neighbors_stored |].
  split; [done |]. simpl.
  split; [by rewrite (get_Some_key _ _ _ Hget) |].
  repeat split.
  - intros Hattrs. unfold get_node. rewrite Hget.
    by rewrite <- start_row_is_node_dict.
  - intros Hiso. unfold Arango.traversal.
    by rewrite paths_isolated.
Qed.

Lemma start_node_is_first_witness :
  ∃ g start rest,
    get_node_neighbors "1" (Some 3%Z) (after_node node_X Arango.empty) = Return g
    ∧ GraphDict.nodes g = start :: rest
    ∧ NodeDict.id start = JStr "1"
    ∧ NodeDict.label start = JStr "X"
    ∧ NodeDict.type start = JStr "person"
    ∧ NodeDict.properties start = JObj [("name", JStr "X")]
    ∧ ((∀ a, a ∈ ["label"; "type"; "properties"] →
             is_Some (Arango.Doc.attrs
                        (Arango.Doc.mk "1" (Node.dict node_X)) !! a)) →
       get_node "1" (after_node node_X Arango.empty) = Return start)
    ∧ (isolated (after_node node_X Arango.empty) "1" →
       g = {| GraphDict.nodes := [start]; GraphDict.edges := [] |}).
Proof.
  apply (start_node_is_first "1" 3 (after_node node_X Arango.empty)
           (Arango.Doc.mk "1" (Node.dict node_X))).
  - vm_compute. reflexivity.
  - lia.
Defined.

(** C5, at the failing input: a node created with a label and a type and
    no properties map, and no edge. [get_node] returns it with the empty
    properties map. The neighborhood query projects the attribute the
    document lacks as null, the row has the key, so the default of
    [node.get("properties", {})] (line 265) never applies: the one node of
    the returned graph has null properties and is not the start node as
    [get_node] returns it. *)
Theorem C5_start_node_without_properties :
  let db := after_node node_bare Arango.empty in
  let start := NodeDict.mk (JStr "1") (JStr "X") (JStr "person") (JObj []) in
  get_node "1" db = Return start
  ∧ isolated db "1"
  ∧ get_node_neighbors "1" (Some 1%Z) db
    = Return {| GraphDict.nodes :=
                  [NodeDict.mk (JStr "1") (JStr "X") (JStr "person") JNull];
                GraphDict.edges := [] |}
  ∧ get_node_neighbors "1" (Some 1%Z) db
    ≠ Return {| GraphDict.nodes := [start]; GraphDict.edges := [] |}.
Proof.
  split; [vm_compute; reflexivity |].
  split; [intros e He; by apply elem_of_nil in He |].
  split; [vm_compute; reflexivity |].
  vm_compute. discriminate.
Qed.

(** The rows of two traversals that differ by one hop. *)
Lemma traversal_mono db start depth row :
  row ∈ Arango.traversal db start depth →
  row ∈ Arango.traversal db start (S depth).
Proof.
  unfold Arango.traversal. rewrite !list_elem_of_fmap.
  intros (p & -> & Hp). exists p. split; [done |]. by apply paths_mono.
Qed.

(** C6: for a stored start node and a depth d with 1 <= d < 3, both
    expansions return a graph, and every node of the expansion to depth d,
    and so every node id, is in the expansion to depth d+1. *)
Theorem C6_depth_monotone
    (node_id : string) (depth : Z) (db : Arango.database) :
  node_id ∈ Arango.Doc._key <$> Arango.nodes db →
  (1 ≤ depth < 3)%Z →
  ∃ g g',
    get_node_neighbors node_id (Some depth) db = Return g
    ∧ get_node_neighbors node_id (Some (depth + 1)%Z) db = Return g'
    ∧ node_ids g ⊆ node_ids g'
    ∧ GraphDict.nodes g ⊆ GraphDict.nodes g'.
Proof.
  intros Hin Hd.
  assert (is_Some (Arango.get (Arango.nodes db) node_id)) as [doc Hget].
  { apply has_true_get. unfold Arango.has. by apply bool_decide_eq_true. }
  eexists _, _.
  split; [apply (get_node_neighbors_stored _ _ _ doc); [done | lia] |].
  split; [apply (get_node_neighbors_stored _ _ _ doc); [done | lia] |].
  assert (∀ x,
    x ∈ Arango.distinct
          ((λ n, Arango.NodeRow.of_vertex n.1)
             <$> Arango.traversal db ("nodes/" +:+ node_id) (Z.to_nat depth)) →
    x ∈ Arango.distinct
          ((λ n, Arango.NodeRow.of_vertex n.1)
             <$> Arango.traversal db ("nodes/" +:+ node_id)
                   (Z.to_nat (depth + 1)))) as Hrows.
  { intros x. rewrite !elem_of_distinct, !list_elem_of_fmap.
    intros (row & -> & Hrow). exists row. split; [done |].
    replace (Z.to_nat (depth + 1)) with (S (Z.to_nat depth)) by lia.
    by apply traversal_mono. }
  assert (∀ n,
    n ∈ format_node (Arango.NodeRow.of_vertex (Some doc))
        :: (format_node <$>
              Arango.distinct
                ((λ n, Arango.NodeRow.of_vertex n.1)
                   <$> Arango.traversal db ("nodes/" +:+ node_id)
                         (Z.to_nat depth))) →
    n ∈ format_node (Arango.NodeRow.of_vertex (Some doc))
        :: (format_node <$>
              Arango.distinct
                ((λ n, Arango.NodeRow.of_vertex n.1)
                   <$> Arango.traversal db ("nodes/" +:+ node_id)
                         (Z.to_nat (depth + 1))))) as Hnodes.
  { intros n. rewrite !elem_of_cons, !list_elem_of_fmap.
    intros [-> | (x & -> & Hx)]; [by left | right].
    exists x. split; [done | by apply Hrows]. }
  split; [| exact Hnodes].
  unfold node_ids. intros i. rewrite !list_elem_of_fmap.
  intros (n & -> & Hn). exists n. split; [done | by apply Hnodes].
Qed.

Lemma C6_depth_monotone_witness :
  ∃ g g',
    get_node_neighbors "1" (Some 1%Z) store_ABC = Return g
    ∧ get_node_neighbors "1" (Some (1 + 1)%Z) store_ABC = Return g'
    ∧ node_ids g ⊆ node_ids g'
    ∧ GraphDict.nodes g ⊆ GraphDict.nodes g'.
Proof.
  apply (C6_depth_monotone "1" 1 store_ABC).
  - refine (bool_decide_unpack _ _). vm_compute. exact I.
  - lia.
Defined.

(** Apart from the start node, no id is listed twice: the reached vertices
    go through [RETURN DISTINCT], and rows with one key are one row. *)
Lemma reached_nodes_NoDup node_id depth db g :
  get_node_neighbors node_id depth db = Return g →
  ∃ start rest,
    GraphDict.nodes g = start :: rest ∧ NoDup (NodeDict.id <$> rest).
Proof.
  unfold get_node_neighbors.
  destruct (Query 1 0 3 depth) as [d |]; [| done].
  destruct (negb _); [done |]. intros [= <-]. simpl.
  eexists _, _. split; [done |].
  rewrite <- list_fmap_compose.
  apply NoDup_fmap_2_strong; [| apply NoDup_distinct].
  intros x y. rewrite !elem_of_distinct, !list_elem_of_fmap.
  intros (r1 & -> & H1) (r2 & -> & H2). unfold Arango.traversal in H1, H2.
  apply list_elem_of_fmap in H1 as (p1 & -> & _).
  apply list_elem_of_fmap in H2 as (p2 & -> & _).
  simpl. apply of_vertex_key_inj.
Qed.

(** C1, at the failing input: in the store with nodes A and B and the two
    edges A→B and B→A, the expansion from A to depth 2 walks A, B and back
    to A over the other edge, and the returned node sequence lists A
    twice. *)
Theorem C1_start_node_is_listed_twice :
  ∃ g,
    get_node_neighbors "1" (Some 2%Z) store_cycle = Return g
    ∧ node_ids g = [JStr "1"; JStr "2"; JStr "1"]
    ∧ ¬ NoDup (node_ids g).
Proof.
  eexists. split; [vm_compute; reflexivity |]. split; [done |].
  unfold node_ids. simpl. intros H.
  apply NoDup_cons in H as [H _]. apply H. set_solver.
Qed.

(** C7: in the store with exactly the nodes A, B, C and the edges A→B and
    B→C, both labelled LINKS, the expansion from A to depth 1 is the nodes
    A, B and the edge A→B, without C; to depth 2 it is the nodes A, B, C
    and the edges A→B, B→C. Edges are followed against their direction:
    the expansion from C to depth 1 is the nodes C, B and the edge B→C. *)
Theorem C7_chain_scenario :
  get_graph None store_ABC
  = Return {| GraphDict.nodes := [entry_A; entry_B; entry_C];
              GraphDict.edges := [entry_AB; entry_BC] |}
  ∧ get_node_neighbors "1" (Some 1%Z) store_ABC
    = Return {| GraphDict.nodes := [entry_A; entry_B];
                GraphDict.edges := [entry_AB] |}
  ∧ (entry_C ∉ [entry_A; entry_B])
  ∧ get_node_neighbors "1" (Some 2%Z) store_ABC
    = Return {| GraphDict.nodes := [entry_A; entry_B; entry_C];
                GraphDict.edges := [entry_AB; entry_BC] |}
  ∧ get_node_neighbors "3" (Some 1%Z) store_ABC
    = Return {| GraphDict.nodes := [entry_C; entry_B];
                GraphDict.edges := [entry_BC] |}.
Proof.
  split; [vm_compute; reflexivity |].
  split; [vm_compute; reflexivity |].
  split; [| split; vm_compute; reflexivity].
  rewrite !not_elem_of_cons. repeat split; try discriminate. apply not_elem_of_nil.
Qed.

(** * Further properties of the routes *)

(** ** Lookup and listing *)

Lemma get_unique coll d :
  NoDup (Arango.Doc._key <$> coll) → d ∈ coll →
  Arango.get coll (Arango.Doc._key d) = Some d.
Proof.
  unfold Arango.get. induction coll as [| d' coll IH]; simpl.
  - intros _ H. by apply elem_of_nil in H.
  - rewrite NoDup_cons, elem_of_cons. intros [Hnotin Hnd] [-> | Hin].
    + by rewrite bool_decide_eq_true_2.
    + rewrite bool_decide_eq_false_2; [by apply IH |].
      intros Heq. apply Hnotin. rewrite Heq. by apply list_elem_of_fmap_2.
Qed.

(** X2: in a store whose node keys are distinct, every node a listing
    returns is the node [get_node] returns for its id. *)
Theorem listed_node_is_gettable
    (type : option string) (limit : option Z) (db : Arango.database)
    (l : list NodeDict.t) (x : NodeDict.t) :
  NoDup (Arango.Doc._key <$> Arango.nodes db) →
  get_nodes type limit db = Return l →
  x ∈ l →
  ∃ key, NodeDict.id x = JStr key ∧ get_node key db = Return x.
Proof.
  intros Hnd. unfold get_nodes.
  destruct (Query 100 0 1000 limit) as [n |]; [| done].
  intros [= <-]. rewrite list_elem_of_fmap. intros (doc & -> & Hdoc).
  exists (Arango.Doc._key doc). split; [done |].
  assert (doc ∈ Arango.nodes db) as Hin.
  { destruct (truthy type);
      unfold Arango.nodes_of_type, Arango.nodes_limit in Hdoc;
      apply subseteq_take in Hdoc; [| done].
    by apply list_elem_of_filter in Hdoc as [_ ?]. }
  unfold get_node. by rewrite get_unique.
Qed.

Lemma listed_node_is_gettable_witness :
  ∃ key, NodeDict.id entry_B = JStr key
    ∧ get_node key store_ABC = Return entry_B.
Proof.
  apply (listed_node_is_gettable None (Some 2%Z) store_ABC [entry_A; entry_B]).
  - refine (bool_decide_unpack _ _). vm_compute. exact I.
  - vm_compute. reflexivity.
  - set_solver.
Defined.

(** X3: a non-empty type is an exact-match filter applied before the
    limit. Every node the listing returns is a stored node whose type is
    the given string; and when no more stored nodes match than the limit
    allows, every stored node of that type is returned. *)
Theorem get_nodes_filters_by_exact_type
    (c : ascii) (s : string) (limit : option Z) (n : Z) (db : Arango.database) :
  Query 100 0 1000 limit = Some n →
  ∃ l, get_nodes (Some (String c s)) limit db = Return l
    ∧ (∀ x, x ∈ l →
         NodeDict.type x = JStr (String c s)
         ∧ ∃ doc, doc ∈ Arango.nodes db ∧ x = node_dict_of doc)
    ∧ ((length (filter (λ d, Arango.Doc.attr d "type" = JStr (String c s))
                  (Arango.nodes db)) ≤ Z.to_nat n)%nat →
       ∀ doc, doc ∈ Arango.nodes db →
         Arango.Doc.attr doc "type" = JStr (String c s) →
         node_dict_of doc ∈ l).
Proof.
  intros Q. unfold get_nodes. rewrite Q. simpl. eexists. split; [done |].
  unfold Arango.nodes_of_type. split.
  - intros x. rewrite list_elem_of_fmap. intros (doc & -> & Hdoc).
    apply subseteq_take in Hdoc. apply list_elem_of_filter in Hdoc as [Hty Hin].
    split; [| by exists doc].
    unfold node_dict_of, dict_get. simpl. unfold Arango.Doc.attr in Hty.
    by destruct (Arango.Doc.attrs doc !! "type").
  - intros Hlen doc Hin Hty. rewrite take_ge by done.
    apply list_elem_of_fmap_2. by apply list_elem_of_filter.
Qed.

Lemma get_nodes_filters_witness :
  ∃ l, get_nodes (Some "page") (Some 10%Z) store_ABC = Return l
    ∧ (∀ x, x ∈ l →
         NodeDict.type x = JStr "page"
         ∧ ∃ doc, doc ∈ Arango.nodes store_ABC ∧ x = node_dict_of doc)
    ∧ ((length (filter (λ d, Arango.Doc.attr d "type" = JStr "page")
                  (Arango.nodes store_ABC)) ≤ Z.to_nat 10)%nat →
       ∀ doc, doc ∈ Arango.nodes store_ABC →
         Arango.Doc.attr doc "type" = JStr "page" →
         node_dict_of doc ∈ l).
Proof.
  apply (get_nodes_filters_by_exact_type "p" "age" (Some 10%Z) 10 store_ABC).
  reflexivity.
Defined.

(** X5: [get_graph] is the two unfiltered listings under one limit. With a
    limit in range it returns the nodes of [get_nodes] and the edges of
    [get_edges] for that limit, each cut at the limit on its own, so at
    most [limit] of either; with a limit out of range it is rejected like
    they are. *)
Theorem get_graph_is_both_listings (limit : option Z) (db : Arango.database) :
  match Query 100 0 1000 limit with
  | Some n =>
      ∃ g, get_graph limit db = Return g
        ∧ get_nodes None limit db = Return (GraphDict.nodes g)
        ∧ get_edges limit db = Return (GraphDict.edges g)
        ∧ (Z.of_nat (length (GraphDict.nodes g)) ≤ n ≤ 1000)%Z
        ∧ (Z.of_nat (length (GraphDict.edges g)) ≤ n)%Z
  | None =>
      get_graph limit db = Raise RequestValidationError
      ∧ get_nodes None limit db = Raise RequestValidationError
      ∧ get_edges limit db = Raise RequestValidationError
  end.
Proof.
  unfold get_graph, get_nodes, get_edges.
  destruct (Query 100 0 1000 limit) as [n |] eqn:Q; [| done].
  apply Query_bounds in Q. eexists. repeat split; simpl;
    rewrite ?length_fmap; unfold Arango.nodes_limit, Arango.edges_limit;
    rewrite ?length_take; lia.
Qed.

(** ** Creation requests and the store they leave *)

Lemma get_app_stored coll d key :
  Arango.has coll key = true → Arango.get (coll ++ [d]) key = Arango.get coll key.
Proof.
  unfold Arango.has, Arango.get. rewrite bool_decide_eq_true.
  induction coll as [| d' coll IH]; simpl.
  - intros H. by apply elem_of_nil in H.
  - rewrite elem_of_cons. case_bool_decide as E; [done |].
    intros [-> | H]; [done | by apply IH].
Qed.

(** What a creation request does to the store: nothing, or one document
    appended under the generated key, which was free, and one tick. *)
Lemma after_node_cases node db :
  after_node node db = db
  ∨ (Arango.has (Arango.nodes db) (Arango.next_key db) = false
     ∧ after_node node db
       = Arango.Database
           (Arango.nodes db
              ++ [Arango.Doc.mk (Arango.next_key db) (drop_null_id (Node.dict node))])
           (Arango.edges db) (N.succ (Arango.tick db))).
Proof.
  unfold after_node, create_node, Arango.insert_node.
  destruct (Arango.has _ _); [by left | by right].
Qed.

Lemma after_edge_cases edge db :
  after_edge edge db = db
  ∨ ((Arango.next_key db ∉ Arango.EdgeDoc._key <$> Arango.edges db)
     ∧ Arango.valid_handle (Edge.from_node edge) = true
     ∧ Arango.valid_handle (Edge.to_node edge) = true
     ∧ after_edge edge db
       = Arango.Database (Arango.nodes db)
           (Arango.edges db
              ++ [Arango.EdgeDoc.mk (Arango.next_key db)
                    (Edge.from_node edge) (Edge.to_node edge)
                    (delete "_from"
                       (delete "_to"
                          (arango_format edge (drop_null_id (Edge.dict edge)))))])
           (N.succ (Arango.tick db))).
Proof.
  unfold after_edge, create_edge, Arango.insert_edge.
  rewrite edge_dict_from, edge_dict_to.
  destruct (Arango.valid_handle (Edge.from_node edge)) eqn:Hf; [| by left].
  destruct (Arango.valid_handle (Edge.to_node edge)) eqn:Ht; [| by left].
  simpl. case_bool_decide as Hk; [by left | by right].
Qed.

(** X6: creating a node leaves what is stored alone. Whatever the request
    returns, every node that was stored reads back as before, and the
    edge listing is unchanged. *)
Theorem create_node_keeps_stored
    (node : Node.t) (db : Arango.database) (node_id : string) :
  Arango.has (Arango.nodes db) node_id = true →
  get_node node_id (create_node node db).2 = get_node node_id db
  ∧ ∀ limit, get_edges limit (create_node node db).2 = get_edges limit db.
Proof.
  intros Hhas. fold (after_node node db).
  destruct (after_node_cases node db) as [-> | [_ ->]]; [done |].
  split; [| done]. unfold get_node. simpl. by rewrite get_app_stored.
Qed.

Lemma create_node_keeps_stored_witness :
  get_node "2" (create_node node_X store_ABC).2 = get_node "2" store_ABC
  ∧ ∀ limit, get_edges limit (create_node node_X store_ABC).2
             = get_edges limit store_ABC.
Proof.
  apply (create_node_keeps_stored node_X store_ABC "2").
  vm_compute. reflexivity.
Defined.

(** The document [create_edge] stores reads back as the dictionary it
    returned. *)
Lemma stored_edge_entry edge key :
  edge_dict_of
    (Arango.EdgeDoc.mk key (Edge.from_node edge) (Edge.to_node edge)
       (delete "_from"
          (delete "_to" (arango_format edge (drop_null_id (Edge.dict edge))))))
  = EdgeDict.mk (JStr key) (JStr (Edge.from_node edge))
      (JStr (Edge.to_node edge)) (JStr (Edge.label edge))
      (JObj (default [] (Edge.properties edge))).
Proof. by destruct edge as [[[i |] |] f t l [p |]]. Qed.

Lemma returned_edge_entry edge key :
  let edge_dict := arango_format edge (drop_null_id (Edge.dict edge)) in
  EdgeDict.mk (JStr key) (dict_get edge_dict "_from" JNull)
    (dict_get edge_dict "_to" JNull)
    (dict_get edge_dict "label" (JStr EmptyString))
    (dict_get edge_dict "properties" (JObj []))
  = EdgeDict.mk (JStr key) (JStr (Edge.from_node edge))
      (JStr (Edge.to_node edge)) (JStr (Edge.label edge))
      (JObj (default [] (Edge.properties edge))).
Proof. by destruct edge as [[[i |] |] f t l [p |]]. Qed.

(** X7: a created edge is returned as requested and listed. The
    dictionary [create_edge] returns carries the generated key and the
    endpoints, label and properties of the request (the empty map when it
    set none); the node listings are unchanged; and [get_edges], with a
    limit above the number of edges stored before, lists the edges it
    listed before and that dictionary, in whatever order. *)
Theorem created_edge_is_listed
    (edge : Edge.t) (db db' : Arango.database) (out : EdgeDict.t) (n : Z) :
  create_edge edge db = (Return out, db') →
  (Z.of_nat (length (Arango.edges db)) < n ≤ 1000)%Z →
  out = EdgeDict.mk (JStr (Arango.next_key db)) (JStr (Edge.from_node edge))
          (JStr (Edge.to_node edge)) (JStr (Edge.label edge))
          (JObj (default [] (Edge.properties edge)))
  ∧ (∀ type limit, get_nodes type limit db' = get_nodes type limit db)
  ∧ ∃ l l', get_edges (Some n) db = Return l
      ∧ get_edges (Some n) db' = Return l'
      ∧ l' ≡ₚ out :: l.
Proof.
  intros Hc Hn.
  pose proof (after_edge_cases edge db) as Hcases.
  unfold after_edge in Hcases. revert Hc Hcases.
  unfold create_edge, Arango.insert_edge.
  rewrite edge_dict_from, edge_dict_to.
  destruct (Arango.valid_handle (Edge.from_node edge)
            && Arango.valid_handle (Edge.to_node edge)); simpl; [| done].
  case_bool_decide as Hk; [done |]. simpl.
  intros [= <- <-] _. rewrite returned_edge_entry.
  split; [done |]. split; [done |].
  unfold get_edges. rewrite Query_in_range by lia.
  unfold Arango.edges_limit. simpl.
  eexists _, _. split; [done |]. split; [done |].
  rewrite !take_ge by (rewrite ?length_app; simpl; lia).
  rewrite fmap_app. simpl. rewrite stored_edge_entry.
  symmetry. apply Permutation_cons_append.
Qed.

Lemma created_edge_is_listed_witness :
  EdgeDict.mk (JStr "6") (JStr "nodes/ghost") (JStr "nodes/phantom")
    (JStr "KNOWS") (JObj [])
  = EdgeDict.mk (JStr (Arango.next_key store_ABC))
      (JStr (Edge.from_node dangling_edge))
      (JStr (Edge.to_node dangling_edge)) (JStr (Edge.label dangling_edge))
      (JObj (default [] (Edge.properties dangling_edge)))
  ∧ (∀ type limit,
       get_nodes type limit (after_edge dangling_edge store_ABC)
       = get_nodes type limit store_ABC)
  ∧ ∃ l l', get_edges (Some 100%Z) store_ABC = Return l
      ∧ get_edges (Some 100%Z) (after_edge dangling_edge store_ABC) = Return l'
      ∧ l' ≡ₚ EdgeDict.mk (JStr "6") (JStr "nodes/ghost")
                (JStr "nodes/phantom") (JStr "KNOWS") (JObj []) :: l.
Proof.
  apply (created_edge_is_listed dangling_edge store_ABC
           (after_edge dangling_edge store_ABC)
           (EdgeDict.mk (JStr "6") (JStr "nodes/ghost") (JStr "nodes/phantom")
              (JStr "KNOWS") (JObj [])) 100).
  - vm_compute. reflexivity.
  - vm_compute. split; [reflexivity | discriminate].
Defined.

(** ** Stores built through the routes: invariants *)

Lemma well_keyed_after_node node db :
  well_keyed db → well_keyed (after_node node db).
Proof.
  intros [Hn He]. destruct (after_node_cases node db) as [-> | [Hfree ->]];
    [done |].
  split; [| done]. simpl. rewrite fmap_app. apply NoDup_app.
  split; [done |]. split; [| apply NoDup_singleton].
  intros k Hk. simpl. rewrite list_elem_of_singleton. intros ->.
  unfold Arango.has in Hfree. by apply bool_decide_eq_false in Hfree.
Qed.

Lemma well_keyed_after_edge edge db :
  well_keyed db → well_keyed (after_edge edge db).
Proof.
  intros [Hn He].
  destruct (after_edge_cases edge db) as [-> | (Hfree & _ & _ & ->)]; [done |].
  split; [done |]. simpl. rewrite fmap_app. apply NoDup_app.
  split; [done |]. split; [| apply NoDup_singleton].
  intros k Hk. simpl. rewrite list_elem_of_singleton. by intros ->.
Qed.

Lemma keys_from_tick_after_node node db :
  keys_from_tick db → keys_from_tick (after_node node db).
Proof.
  intros [Hn He]. destruct (after_node_cases node db) as [-> | [_ ->]]; [done |].
  split; simpl.
  - intros k. rewrite fmap_app, elem_of_app. simpl.
    rewrite list_elem_of_singleton. intros [Hk | ->].
    + destruct (Hn k Hk) as (n & Hle & ->). exists n. split; [lia | done].
    + exists (N.succ (Arango.tick db)). split; [lia | done].
  - intros k Hk. destruct (He k Hk) as (n & Hle & ->).
    exists n. split; [lia | done].
Qed.

Lemma keys_from_tick_after_edge edge db :
  keys_from_tick db → keys_from_tick (after_edge edge db).
Proof.
  intros [Hn He].
  destruct (after_edge_cases edge db) as [-> | (_ & _ & _ & ->)]; [done |].
  split; simpl.
  - intros k Hk. destruct (Hn k Hk) as (n & Hle & ->).
    exists n. split; [lia | done].
  - intros k. rewrite fmap_app, elem_of_app. simpl.
    rewrite list_elem_of_singleton. intros [Hk | ->].
    + destruct (He k Hk) as (n & Hle & ->). exists n. split; [lia | done].
    + exists (N.succ (Arango.tick db)). split; [lia | done].
Qed.

Lemma stored_edge_label edge :
  delete "_from"
    (delete "_to" (arango_format edge (drop_null_id (Edge.dict edge))))
  !! "label" = Some (JStr (Edge.label edge)).
Proof. by destruct edge as [[[i |] |] f t l [p |]]. Qed.

Lemma stored_shape_after_node node db :
  stored_shape db → stored_shape (after_node node db).
Proof.
  intros [Hn He]. destruct (after_node_cases node db) as [-> | [_ ->]]; [done |].
  split; [| done]. simpl. intros d. rewrite elem_of_app, list_elem_of_singleton.
  intros [Hd | ->]; [by apply Hn |]. simpl.
  rewrite node_dict_label, node_dict_type. split; by eexists.
Qed.

Lemma stored_shape_after_edge edge db :
  stored_shape db → stored_shape (after_edge edge db).
Proof.
  intros [Hn He].
  destruct (after_edge_cases edge db) as [-> | (_ & Hf & Ht & ->)]; [done |].
  split; [done |]. simpl. intros e. rewrite elem_of_app, list_elem_of_singleton.
  intros [Hd | ->]; [by apply He |]. simpl.
  rewrite stored_edge_label. repeat split; [done | done | by eexists].
Qed.

(** X8: what holds of every store built through the creation routes. No
    two nodes and no two edges share a key; every key is the rendering of
    a tick the server has passed; every node holds a string label and a
    string type, and every edge holds a string label and two well-formed
    handles as its ends. *)
Theorem built_store_invariant (db : Arango.database) :
  built db → well_keyed db ∧ keys_from_tick db ∧ stored_shape db.
Proof.
  induction 1 as [| node db _ (Hk & Ht & Hs) | edge db _ (Hk & Ht & Hs)].
  - split; [split; apply NoDup_nil_2 |].
    split; split; simpl; intros ? H; by apply elem_of_nil in H.
  - split; [by apply well_keyed_after_node |].
    split; [by apply keys_from_tick_after_node | by apply stored_shape_after_node].
  - split; [by apply well_keyed_after_edge |].
    split; [by apply keys_from_tick_after_edge | by apply stored_shape_after_edge].
Qed.

Lemma built_store_ABC : built store_ABC.
Proof. repeat constructor. Defined.

Lemma built_store_invariant_witness :
  well_keyed store_ABC ∧ keys_from_tick store_ABC ∧ stored_shape store_ABC.
Proof. apply (built_store_invariant store_ABC). exact built_store_ABC. Defined.

(** ** Neighborhood expansion: the depth, and the shape of the result *)

(** X10: a depth outside [1,3] is rejected. For every node id, stored or
    not, the request ends in the validation error, not in a graph and not
    in 404; and an omitted depth is depth 1. *)
Theorem depth_outside_range_is_rejected
    (node_id : string) (depth : Z) (db : Arango.database) :
  ¬ (1 ≤ depth ≤ 3)%Z →
  get_node_neighbors node_id (Some depth) db = Raise RequestValidationError
  ∧ get_node_neighbors node_id None db = get_node_neighbors node_id (Some 1%Z) db.
Proof.
  intros H. split; [| done]. unfold get_node_neighbors.
  by rewrite Query_out_of_range by lia.
Qed.

Lemma depth_outside_range_witness :
  get_node_neighbors "1" (Some 4%Z) store_ABC = Raise RequestValidationError
  ∧ get_node_neighbors "1" None store_ABC
    = get_node_neighbors "1" (Some 1%Z) store_ABC.
Proof. apply (depth_outside_range_is_rejected "1" 4 store_ABC). lia. Defined.

Lemma other_end_Some u e v :
  Arango.other_end u e = Some v →
  (Arango.EdgeDoc._from e = u ∧ Arango.EdgeDoc._to e = v)
  ∨ (Arango.EdgeDoc._to e = u ∧ Arango.EdgeDoc._from e = v).
Proof.
  unfold Arango.other_end. repeat case_decide; intros [= <-]; auto.
Qed.

(** One more hop: a row of a traversal to depth [S d] is a first edge out
    of [cur], or a row of the traversal to depth [d] from its other end. *)
Lemma elem_of_paths_S E d cur used x :
  x ∈ Arango.paths E (S d) cur used ↔
  ∃ e v, e ∈ E ∧ Arango.other_end cur e = Some v
    ∧ (Arango.EdgeDoc._key e ∉ used)
    ∧ (x = (v, e)
       ∨ x ∈ Arango.paths E d v (Arango.EdgeDoc._key e :: used)).
Proof.
  change (Arango.paths E (S d) cur used) with
    (E ≫= λ e, match Arango.other_end cur e with
               | Some v =>
                   if decide (Arango.EdgeDoc._key e ∈ used) then []
                   else (v, e)
                        :: Arango.paths E d v (Arango.EdgeDoc._key e :: used)
               | None => []
               end).
  rewrite list_elem_of_bind. split.
  - intros (e & Hx & He). destruct (Arango.other_end cur e) as [v |] eqn:Ho;
      [| by apply elem_of_nil in Hx].
    case_decide as Hu; [by apply elem_of_nil in Hx |].
    apply elem_of_cons in Hx. exists e, v. done.
  - intros (e & v & He & Ho & Hu & Hx). exists e. split; [| done].
    rewrite Ho, decide_False by done. by apply elem_of_cons.
Qed.

(** Every row of a traversal is a stored edge and one of its ends, reached
    from the other end, which is the start or a reached vertex. *)
Lemma paths_sound E d cur used v e :
  (v, e) ∈ Arango.paths E d cur used →
  e ∈ E
  ∧ ∃ u, Arango.other_end u e = Some v
      ∧ (u = cur ∨ ∃ e', (u, e') ∈ Arango.paths E d cur used).
Proof.
  revert cur used. induction d as [| d IH]; intros cur used.
  - simpl. intros H. by apply elem_of_nil in H.
  - intros Hx. pose proof Hx as Hx'.
    apply elem_of_paths_S in Hx' as (e0 & v0 & He0 & Ho & Hu & [[= -> ->] | Hin]).
    + split; [done |]. exists cur. split; [done | by left].
    + destruct (IH _ _ Hin) as (He & u & Hou & Hu').
      split; [done |]. exists u. split; [done |]. right.
      destruct Hu' as [-> | [e' He']].
      * exists e0. apply elem_of_paths_S. exists e0, v0. repeat split; auto.
      * exists e'. apply elem_of_paths_S. exists e0, v0. repeat split; auto.
Qed.

(** The graph [get_node_neighbors] returns, by membership: its nodes are
    the entry of the start handle and the entries at the reached handles,
    its edges the entries of the traversed edges. *)
Lemma neighbors_members node_id depth db g :
  get_node_neighbors node_id depth db = Return g →
  ∃ d : Z, Query 1 0 3 depth = Some d
    ∧ (∃ rest, GraphDict.nodes g = entry_at db (handle node_id) :: rest
         ∧ ∀ n, n ∈ rest ↔
             ∃ v e, (v, e) ∈ Arango.paths (Arango.edges db) (Z.to_nat d)
                               (handle node_id) []
                    ∧ n = entry_at db v)
    ∧ (∀ x, x ∈ GraphDict.edges g ↔
         ∃ v e, (v, e) ∈ Arango.paths (Arango.edges db) (Z.to_nat d)
                           (handle node_id) []
                ∧ x = edge_entry e)
    ∧ GraphDict.edges g
      = format_edge <$>
          Arango.distinct
            ((λ p, Arango.EdgeRow.of_edge (Some p.2))
               <$> Arango.paths (Arango.edges db) (Z.to_nat d)
                     (handle node_id) []).
Proof.
  unfold get_node_neighbors.
  destruct (Query 1 0 3 depth) as [d |]; [| done].
  destruct (negb _); [done |]. intros [= <-]. exists d. split; [done |].
  unfold Arango.neighborhood, Arango.traversal. fold (handle node_id). simpl.
  assert (filter (λ n : option Arango.Doc.t * option Arango.EdgeDoc.t, n.2 ≠ None)
            ((λ p : string * Arango.EdgeDoc.t, (Arango.DOCUMENT db p.1, Some p.2))
               <$> Arango.paths (Arango.edges db) (Z.to_nat d) (handle node_id) [])
          = (λ p : string * Arango.EdgeDoc.t, (Arango.DOCUMENT db p.1, Some p.2))
              <$> Arango.paths (Arango.edges db) (Z.to_nat d) (handle node_id) [])
    as ->.
  { induction (Arango.paths _ _ _ _) as [| p l IH]; [done |].
    rewrite fmap_cons, filter_cons_True by done. by rewrite IH. }
  rewrite <- !list_fmap_compose.
  split; [| split; [| done]].
  - eexists. split; [done |]. intros n.
    rewrite list_elem_of_fmap. setoid_rewrite elem_of_distinct.
    setoid_rewrite list_elem_of_fmap. split.
    + intros (r & -> & [v e] & -> & Hp). by exists v, e.
    + intros (v & e & Hp & ->). eexists. split; [| by exists (v, e)]. done.
  - intros x. rewrite list_elem_of_fmap. setoid_rewrite elem_of_distinct.
    setoid_rewrite list_elem_of_fmap. split.
    + intros (r & -> & [v e] & -> & Hp). by exists v, e.
    + intros (v & e & Hp & ->). eexists. split; [| by exists (v, e)]. done.
Qed.

(** X11: expansion to depth 1 is the edges at the start node. The
    returned edges are exactly the stored edges that have the start node
    at either end, and the returned nodes are the start node and the
    entries at their other ends. *)
Theorem depth_one_is_the_incident_edges
    (node_id : string) (db : Arango.database) (g : GraphDict.t) :
  get_node_neighbors node_id (Some 1%Z) db = Return g →
  (∀ x, x ∈ GraphDict.edges g ↔
     ∃ e, e ∈ Arango.edges db
       ∧ (Arango.EdgeDoc._from e = handle node_id
          ∨ Arango.EdgeDoc._to e = handle node_id)
       ∧ x = edge_entry e)
  ∧ (∀ n, n ∈ GraphDict.nodes g ↔
       n = entry_at db (handle node_id)
       ∨ ∃ e v, e ∈ Arango.edges db
           ∧ Arango.other_end (handle node_id) e = Some v
           ∧ n = entry_at db v).
Proof.
  intros Hg. apply neighbors_members in Hg as (d & [= <-] & (rest & -> & Hn) & He & _).
  change (Z.to_nat 1) with 1%nat in *.
  assert (∀ v e, (v, e) ∈ Arango.paths (Arango.edges db) 1 (handle node_id) []
                 ↔ e ∈ Arango.edges db
                   ∧ Arango.other_end (handle node_id) e = Some v) as Hp.
  { intros v e. rewrite elem_of_paths_S. split.
    - intros (e0 & v0 & He0 & Ho & _ & [[= -> ->] | Hin]); [done |].
      by apply elem_of_nil in Hin.
    - intros [Hin Ho]. exists e, v. repeat split; auto. apply not_elem_of_nil. }
  split.
  - intros x. rewrite He. split.
    + intros (v & e & Hin & ->). apply Hp in Hin as [Hin Ho].
      exists e. split; [done |]. split; [| done].
      apply other_end_Some in Ho as [[? _] | [? _]]; auto.
    + intros (e & Hin & Hends & ->).
      assert (is_Some (Arango.other_end (handle node_id) e)) as [v Ho].
      { unfold Arango.other_end. repeat case_decide; try done. by destruct Hends. }
      exists v, e. split; [by apply Hp | done].
  - intros n. rewrite elem_of_cons, Hn. split.
    + intros [-> | (v & e & Hin & ->)]; [by left | right].
      apply Hp in Hin as [Hin Ho]. by exists e, v.
    + intros [-> | (e & v & Hin & Ho & ->)]; [by left | right].
      exists v, e. split; [by apply Hp | done].
Qed.

Lemma depth_one_witness :
  (∀ x, x ∈ [entry_AB; entry_BC] ↔
     ∃ e, e ∈ Arango.edges store_ABC
       ∧ (Arango.EdgeDoc._from e = handle "2" ∨ Arango.EdgeDoc._to e = handle "2")
       ∧ x = edge_entry e)
  ∧ (∀ n, n ∈ [entry_B; entry_A; entry_C] ↔
       n = entry_at store_ABC (handle "2")
       ∨ ∃ e v, e ∈ Arango.edges store_ABC
           ∧ Arango.other_end (handle "2") e = Some v
           ∧ n = entry_at store_ABC v).
Proof.
  apply (depth_one_is_the_incident_edges "2" store_ABC
           (GraphDict.mk [entry_B; entry_A; entry_C] [entry_AB; entry_BC])).
  vm_compute. reflexivity.
Defined.

(** X12: a deeper expansion returns every edge of a shallower one. *)
Theorem edges_grow_with_depth
    (node_id : string) (depth : Z) (db : Arango.database) (g g' : GraphDict.t) :
  get_node_neighbors node_id (Some depth) db = Return g →
  get_node_neighbors node_id (Some (depth + 1)%Z) db = Return g' →
  GraphDict.edges g ⊆ GraphDict.edges g'.
Proof.
  intros Hg Hg'.
  apply neighbors_members in Hg as (d & Hd & _ & He & _).
  apply neighbors_members in Hg' as (d' & Hd' & _ & He' & _).
  pose proof (Query_bounds _ _ _ _ _ Hd) as Hb.
  unfold Query in Hd, Hd'. simpl in Hd, Hd'.
  destruct ((0 <? depth)%Z && (depth <=? 3)%Z); [| done].
  destruct ((0 <? depth + 1)%Z && (depth + 1 <=? 3)%Z); [| done].
  injection Hd as <-. injection Hd' as <-.
  intros x. rewrite He, He'. intros (v & e & Hp & ->). exists v, e.
  split; [| done].
  replace (Z.to_nat (depth + 1)) with (S (Z.to_nat depth)) by lia.
  by apply paths_mono.
Qed.

Lemma edges_grow_with_depth_witness :
  [entry_AB] ⊆ [entry_AB; entry_BC].
Proof.
  apply (edges_grow_with_depth "1" 1 store_ABC
           (GraphDict.mk [entry_A; entry_B] [entry_AB])
           (GraphDict.mk [entry_A; entry_B; entry_C] [entry_AB; entry_BC]));
    vm_compute; reflexivity.
Defined.

(** X13: the result is a subgraph of the store, closed under its edges.
    Every returned edge is a stored edge, and the entries at both its ends
    are among the returned nodes (the all-null entry for an end that names
    no stored node). *)
Theorem result_is_closed_subgraph
    (node_id : string) (depth : option Z) (db : Arango.database)
    (g : GraphDict.t) (x : EdgeDict.t) :
  get_node_neighbors node_id depth db = Return g →
  x ∈ GraphDict.edges g →
  ∃ e, e ∈ Arango.edges db
    ∧ x = edge_entry e
    ∧ entry_at db (Arango.EdgeDoc._from e) ∈ GraphDict.nodes g
    ∧ entry_at db (Arango.EdgeDoc._to e) ∈ GraphDict.nodes g.
Proof.
  intros Hg Hx.
  apply neighbors_members in Hg as (d & _ & (rest & -> & Hn) & He & _).
  apply He in Hx as (v & e & Hp & ->).
  destruct (paths_sound _ _ _ _ _ _ Hp) as (Hin & u & Ho & Hu).
  exists e. split; [done |]. split; [done |].
  assert (entry_at db v ∈ entry_at db (handle node_id) :: rest) as Hv.
  { apply elem_of_cons. right. apply Hn. by exists v, e. }
  assert (entry_at db u ∈ entry_at db (handle node_id) :: rest) as Hu'.
  { apply elem_of_cons. destruct Hu as [-> | [e' He']]; [by left | right].
    apply Hn. by exists u, e'. }
  by apply other_end_Some in Ho as [[-> ->] | [-> ->]].
Qed.

Lemma result_is_closed_subgraph_witness :
  ∃ e, e ∈ Arango.edges store_ABC
    ∧ entry_BC = edge_entry e
    ∧ entry_at store_ABC (Arango.EdgeDoc._from e) ∈ [entry_A; entry_B; entry_C]
    ∧ entry_at store_ABC (Arango.EdgeDoc._to e) ∈ [entry_A; entry_B; entry_C].
Proof.
  apply (result_is_closed_subgraph "1" (Some 2%Z) store_ABC
           (GraphDict.mk [entry_A; entry_B; entry_C] [entry_AB; entry_BC])).
  - vm_compute. reflexivity.
  - set_solver.
Defined.

(** X14: every returned node after the start node hangs on a returned
    edge: it is the entry at an end of an edge of the result. *)
Theorem reached_node_is_on_a_returned_edge
    (node_id : string) (depth : option Z) (db : Arango.database)
    (g : GraphDict.t) (start n : NodeDict.t) (rest : list NodeDict.t) :
  get_node_neighbors node_id depth db = Return g →
  GraphDict.nodes g = start :: rest →
  n ∈ rest →
  ∃ e, edge_entry e ∈ GraphDict.edges g
    ∧ (n = entry_at db (Arango.EdgeDoc._from e)
       ∨ n = entry_at db (Arango.EdgeDoc._to e)).
Proof.
  intros Hg Hnodes Hin.
  apply neighbors_members in Hg as (d & _ & (rest' & Hn' & Hn) & He & _).
  rewrite Hnodes in Hn'. injection Hn' as _ <-.
  apply Hn in Hin as (v & e & Hp & ->).
  exists e. split; [apply He; by exists v, e |].
  destruct (paths_sound _ _ _ _ _ _ Hp) as (_ & u & Ho & _).
  apply other_end_Some in Ho as [[_ ->] | [_ ->]]; auto.
Qed.

Lemma reached_node_witness :
  ∃ e, edge_entry e ∈ [entry_AB; entry_BC]
    ∧ (entry_C = entry_at store_ABC (Arango.EdgeDoc._from e)
       ∨ entry_C = entry_at store_ABC (Arango.EdgeDoc._to e)).
Proof.
  apply (reached_node_is_on_a_returned_edge "1" (Some 2%Z) store_ABC
           (GraphDict.mk [entry_A; entry_B; entry_C] [entry_AB; entry_BC])
           entry_A entry_C [entry_B; entry_C]).
  - vm_compute. reflexivity.
  - reflexivity.
  - set_solver.
Defined.

(** X15: in a store whose edge keys are distinct, no edge id is listed
    twice in the result. *)
Theorem returned_edges_have_distinct_ids
    (node_id : string) (depth : option Z) (db : Arango.database)
    (g : GraphDict.t) :
  NoDup (Arango.EdgeDoc._key <$> Arango.edges db) →
  get_node_neighbors node_id depth db = Return g →
  NoDup (EdgeDict.id <$> GraphDict.edges g).
Proof.
  intros Hnd Hg.
  apply neighbors_members in Hg as (d & _ & _ & _ & ->).
  rewrite <- list_fmap_compose.
  apply NoDup_fmap_2_strong; [| apply NoDup_distinct].
  intros r1 r2. rewrite !elem_of_distinct, !list_elem_of_fmap.
  intros ([v1 e1] & -> & H1) ([v2 e2] & -> & H2). simpl. intros [= Hk].
  apply paths_sound in H1 as [H1 _]. apply paths_sound in H2 as [H2 _].
  apply list_elem_of_lookup in H1 as [i Hi]. apply list_elem_of_lookup in H2 as [j Hj].
  assert (i = j) as ->.
  { eapply NoDup_lookup; [exact Hnd | |].
    - rewrite list_lookup_fmap, Hi. done.
    - rewrite list_lookup_fmap, Hj. simpl. by rewrite Hk. }
  by simplify_eq.
Qed.

Lemma returned_edges_distinct_witness :
  NoDup (EdgeDict.id <$> [entry_AB; entry_BC]).
Proof.
  apply (returned_edges_have_distinct_ids "1" (Some 2%Z) store_ABC
           (GraphDict.mk [entry_A; entry_B; entry_C] [entry_AB; entry_BC])).
  - refine (bool_decide_unpack _ _). vm_compute. exact I.
  - vm_compute. reflexivity.
Defined.

(** ** Opening the database *)

(** The graph step of [get_db], once both collections exist: an existing
    graph is left as it is; a missing one is created and given its vertex
    collection and its edge definition, which the server refuses when
    "nodes" is an edge collection or "edges" a document collection. *)
Lemma graph_step us cs gs cn ce :
  cs !! "nodes" = Some cn → cs !! "edges" = Some ce →
  (let db := Server.Database us cs gs in
   if negb (Server.has_graph db "webgraph")
   then
     db ← Server.create_graph db "webgraph";
     db ← (if negb (Server.has_vertex_collection db "webgraph" "nodes")
           then Server.create_vertex_collection db "webgraph" "nodes"
           else Some db);
     if negb (Server.has_edge_definition db "webgraph" "edges")
     then Server.create_edge_definition db "webgraph"
            (Server.EdgeDefinition "edges" ["nodes"] ["nodes"])
     else Some db
   else Some db)
  = match gs !! "webgraph" with
    | Some _ => Some (Server.Database us cs gs)
    | None =>
        if negb (Server.edge cn) && Server.edge ce
        then Some (Server.Database us cs (<["webgraph" := webgraph]> gs))
        else None
    end.
Proof.
  intros Hn He. simpl.
  unfold Server.has_graph, Server.create_graph, Server.has_graph. simpl.
  destruct (gs !! "webgraph") as [g |] eqn:Hg; simpl; [done |].
  unfold Server.has_vertex_collection, Server.create_vertex_collection. simpl.
  rewrite lookup_insert_eq. simpl.
  unfold Server.is_kind at 1. rewrite Hn.
  destruct (Server.edge cn) eqn:Ecn; simpl; [done |].
  unfold Server.has_edge_definition, Server.create_edge_definition. simpl.
  rewrite lookup_insert_eq. simpl.
  unfold Server.ensure_collection, Server.is_kind.
  repeat (rewrite Hn || rewrite He). rewrite Ecn. simpl.
  destruct (Server.edge ce) eqn:Ece; simpl; [| done].
  repeat (rewrite Hn || rewrite He).
  rewrite !insert_insert_eq.
  assert (filter (λ c : string, c ∉ ["nodes"; "nodes"]) ["nodes"] = []) as ->
    by (vm_compute; reflexivity).
  done.
Qed.

(** The steps of [get_db] on the application database go through exactly
    when the graph step does, and then amount to [set_up]. *)
Lemma set_up_steps (db : Server.database) :
  (db ← (if negb (Server.has_collection db "nodes")
         then Server.create_collection db "nodes" false
         else Some db);
   db ← (if negb (Server.has_collection db "edges")
         then Server.create_collection db "edges" true
         else Some db);
   if negb (Server.has_graph db "webgraph")
   then
     db ← Server.create_graph db "webgraph";
     db ← (if negb (Server.has_vertex_collection db "webgraph" "nodes")
           then Server.create_vertex_collection db "webgraph" "nodes"
           else Some db);
     if negb (Server.has_edge_definition db "webgraph" "edges")
     then Server.create_edge_definition db "webgraph"
            (Server.EdgeDefinition "edges" ["nodes"] ["nodes"])
     else Some db
   else Some db)
  = if graph_definable db then Some (set_up db) else None.
Proof.
  destruct db as [us cs gs].
  unfold graph_definable, set_up, Server.has_collection,
    Server.create_collection, Server.has_collection, Server.ensure_collection,
    Server.is_kind. simpl.
  destruct (cs !! "nodes") as [cn |] eqn:Hn; simpl.
  - destruct (cs !! "edges") as [ce |] eqn:He; simpl.
    + etrans; [by apply (graph_step us cs gs cn ce) |].
      destruct (gs !! "webgraph"); [done |].
      by destruct (Server.edge cn), (Server.edge ce).
    + etrans; [apply (graph_step us _ gs cn (Server.Collection true []));
               by simplify_map_eq |].
      destruct (gs !! "webgraph"); [done |]. simpl.
      by destruct (Server.edge cn).
  - rewrite lookup_insert_ne by done.
    destruct (cs !! "edges") as [ce |] eqn:He; simpl.
    + etrans; [apply (graph_step us _ gs (Server.Collection false []) ce);
               by simplify_map_eq |].
      destruct (gs !! "webgraph"); [done |]. simpl.
      by destruct (Server.edge ce).
    + etrans; [apply (graph_step us _ gs (Server.Collection false [])
                        (Server.Collection true [])); by simplify_map_eq |].
      by destruct (gs !! "webgraph").
Qed.

(** The effect of [get_db]: [set_up] on the application database, which
    is created empty for the configured user when the server has none of
    that name; or an exception, when the graph step does not go through. *)
Lemma get_db_closed_form settings srv :
  get_db settings srv
  = if can_open settings srv
    then
      Some (Server.Server
              (<[Settings.ARANGO_DB settings :=
                   set_up (default
                             (Server.Database
                                [Server.User (Settings.ARANGO_USER settings)
                                   (Settings.ARANGO_PASSWORD settings) true] ∅ ∅)
                             (Server.databases srv !! Settings.ARANGO_DB settings))]>
                 (Server.databases srv)))
    else None.
Proof.
  unfold get_db, can_open, Server.has_database, Server.create_database,
    Server.has_database.
  destruct (Server.databases srv !! Settings.ARANGO_DB settings) as [db |] eqn:Hdb;
    simpl.
  - rewrite Hdb. simpl.
    pose proof (set_up_steps db) as Hs. simpl in Hs.
    destruct (if negb (Server.has_collection db "nodes") then _ else _)
      as [d1 |]; simpl in Hs |- *;
      [| by destruct (graph_definable db)].
    destruct (if negb (Server.has_collection d1 "edges") then _ else _)
      as [d2 |]; simpl in Hs |- *;
      [| by destruct (graph_definable db)].
    rewrite Hs. by destruct (graph_definable db).
  - rewrite lookup_insert_eq. simpl.
    pose proof (set_up_steps
                  (Server.Database
                     [Server.User (Settings.ARANGO_USER settings)
                        (Settings.ARANGO_PASSWORD settings) true] ∅ ∅)) as Hs.
    assert (graph_definable
              (Server.Database
                 [Server.User (Settings.ARANGO_USER settings)
                    (Settings.ARANGO_PASSWORD settings) true] ∅ ∅) = true)
      as Hd by reflexivity.
    rewrite Hd in Hs. simpl in Hs.
    destruct (if negb (Server.has_collection _ "nodes") then _ else _)
      as [d1 |]; simpl in Hs |- *; [| done].
    destruct (if negb (Server.has_collection d1 "edges") then _ else _)
      as [d2 |]; simpl in Hs |- *; [| done].
    rewrite Hs. simpl. by rewrite insert_insert_eq.
Qed.

(** What a successful [get_db] left. *)
Lemma get_db_Some settings srv srv' :
  get_db settings srv = Some srv' →
  srv' = Server.Server
           (<[Settings.ARANGO_DB settings :=
                set_up (default
                          (Server.Database
                             [Server.User (Settings.ARANGO_USER settings)
                                (Settings.ARANGO_PASSWORD settings) true] ∅ ∅)
                          (Server.databases srv !! Settings.ARANGO_DB settings))]>
              (Server.databases srv)).
Proof.
  rewrite get_db_closed_form. destruct (can_open settings srv); [| done].
  by intros [= <-].
Qed.

Lemma ensure_collection_has name k cs :
  is_Some (Server.ensure_collection name k cs !! name).
Proof.
  unfold Server.ensure_collection. destruct (cs !! name) eqn:E.
  - by rewrite E.
  - by rewrite lookup_insert_eq.
Qed.

Lemma ensure_collection_keeps name k cs c coll :
  cs !! c = Some coll → Server.ensure_collection name k cs !! c = Some coll.
Proof.
  intros Hc. unfold Server.ensure_collection. destruct (cs !! name) eqn:E; [done |].
  rewrite lookup_insert_ne; [done |]. intros ->. congruence.
Qed.

Lemma set_up_ready db :
  Server.has_collection (set_up db) "nodes" = true
  ∧ Server.has_collection (set_up db) "edges" = true
  ∧ Server.has_graph (set_up db) "webgraph" = true.
Proof.
  destruct db as [us cs gs].
  unfold set_up, Server.has_collection, Server.has_graph. simpl.
  repeat split; apply bool_decide_eq_true.
  - destruct (ensure_collection_has "nodes" false cs) as [x Hx].
    eexists. by apply ensure_collection_keeps.
  - apply ensure_collection_has.
  - destruct (gs !! "webgraph") eqn:Hg; [by rewrite Hg |].
    by rewrite lookup_insert_eq.
Qed.

Lemma set_up_keeps db :
  Server.users (set_up db) = Server.users db
  ∧ (∀ c coll, Server.collections db !! c = Some coll →
               Server.collections (set_up db) !! c = Some coll)
  ∧ (∀ g gr, Server.graphs db !! g = Some gr →
             Server.graphs (set_up db) !! g = Some gr).
Proof.
  destruct db as [us cs gs].
  unfold set_up. simpl.
  split; [done |]. split.
  - intros c coll Hc. by apply ensure_collection_keeps, ensure_collection_keeps.
  - intros g gr Hg. destruct (gs !! "webgraph") eqn:E; [done |].
    rewrite lookup_insert_ne; [done |]. intros <-. congruence.
Qed.

Lemma set_up_twice db : set_up (set_up db) = set_up db.
Proof.
  destruct (set_up_ready db) as (Hn & He & Hg).
  unfold Server.has_collection, Server.has_graph in Hn, He, Hg.
  apply bool_decide_eq_true in Hn as [cn Hn].
  apply bool_decide_eq_true in He as [ce He].
  apply bool_decide_eq_true in Hg as [g Hg].
  destruct (set_up db) as [us cs gs]. simpl in *.
  unfold set_up, Server.ensure_collection. simpl.
  by rewrite Hn, He, Hg.
Qed.

Lemma set_up_definable db : graph_definable (set_up db) = true.
Proof.
  destruct (set_up_ready db) as (_ & _ & Hg).
  unfold Server.has_graph in Hg. apply bool_decide_eq_true in Hg as [g Hg].
  unfold graph_definable. by rewrite Hg.
Qed.


(** A server with a document collection "edges" and no graph: every call
    of [get_db] raises. *)
Example get_db_blocked : get_db default_settings blocked_server = None.
Proof. vm_compute. reflexivity. Qed.

(** X17: [get_db] keeps what is there. In a database that exists, every
    collection stays as it is, documents and kind (an "edges" that is a
    document collection is not made an edge collection), every graph
    stays as it is (a "webgraph" without edge definition gets none), and
    the users are unchanged. *)
Theorem get_db_keeps_what_exists
    (settings : Settings.t) (srv srv' : Server.t) (db : Server.database) :
  get_db settings srv = Some srv' →
  Server.databases srv !! Settings.ARANGO_DB settings = Some db →
  ∃ db',
    Server.databases srv' !! Settings.ARANGO_DB settings = Some db'
    ∧ Server.users db' = Server.users db
    ∧ (∀ c coll, Server.collections db !! c = Some coll →
                 Server.collections db' !! c = Some coll)
    ∧ (∀ g gr, Server.graphs db !! g = Some gr →
               Server.graphs db' !! g = Some gr).
Proof.
  intros Hget Hdb. apply get_db_Some in Hget as ->. rewrite Hdb. simpl.
  exists (set_up db). split; [apply lookup_insert_eq |]. apply set_up_keeps.
Qed.

Lemma get_db_keeps_witness :
  ∃ db',
    Server.databases
      (Server.Server (<["webgraphy" := set_up odd_database]> ∅))
    !! Settings.ARANGO_DB default_settings = Some db'
    ∧ Server.users db' = Server.users odd_database
    ∧ (∀ c coll, Server.collections odd_database !! c = Some coll →
                 Server.collections db' !! c = Some coll)
    ∧ (∀ g gr, Server.graphs odd_database !! g = Some gr →
               Server.graphs db' !! g = Some gr).
Proof.
  apply (get_db_keeps_what_exists default_settings odd_server
           (Server.Server (<["webgraphy" := set_up odd_database]> ∅))
           odd_database).
  - vm_compute. reflexivity.
  - vm_compute. reflexivity.
Defined.

(** X18: [get_db] is idempotent: run on the server it left, it changes
    nothing. *)
Theorem get_db_idempotent (settings : Settings.t) (srv srv' : Server.t) :
  get_db settings srv = Some srv' → get_db settings srv' = Some srv'.
Proof.
  intros Hget. apply get_db_Some in Hget as ->.
  rewrite get_db_closed_form. unfold can_open. simpl.
  rewrite lookup_insert_eq, set_up_definable. simpl.
  by rewrite set_up_twice, insert_insert_eq.
Qed.

Lemma get_db_idempotent_witness :
  get_db default_settings
    (Server.Server
       (<["webgraphy" := new_database default_settings]>
          (Server.databases other_server)))
  = Some (Server.Server
            (<["webgraphy" := new_database default_settings]>
               (Server.databases other_server))).
Proof.
  apply (get_db_idempotent default_settings other_server).
  vm_compute. reflexivity.
Defined.

(** X19: on a server without the application database, [get_db] creates
    it for the configured user with an empty document collection "nodes",
    an empty edge collection "edges", and the graph "webgraph" whose one
    edge definition takes "edges" from "nodes" to "nodes", with no orphan
    collection. *)
Theorem get_db_on_a_new_server (settings : Settings.t) (srv : Server.t) :
  Server.databases srv !! Settings.ARANGO_DB settings = None →
  get_db settings srv
  = Some (Server.Server
            (<[Settings.ARANGO_DB settings := new_database settings]>
               (Server.databases srv))).
Proof.
  intros Hdb. rewrite get_db_closed_form. unfold can_open. by rewrite Hdb.
Qed.

Lemma get_db_on_a_new_server_witness :
  get_db default_settings other_server
  = Some (Server.Server
            (<[Settings.ARANGO_DB default_settings
                 := new_database default_settings]>
               (Server.databases other_server))).
Proof.
  apply (get_db_on_a_new_server default_settings other_server).
  vm_compute. reflexivity.
Defined.

(** ** Null ids *)

Lemma null_id_dropped_node l t p :
  drop_null_id (Node.dict (Node.mk (Some None) l t p))
  = drop_null_id (Node.dict (Node.mk None l t p)).
Proof. destruct p; vm_compute; reflexivity. Qed.

Lemma null_id_dropped_edge f t l p :
  drop_null_id (Edge.dict (Edge.mk (Some None) f t l p))
  = drop_null_id (Edge.dict (Edge.mk None f t l p)).
Proof. destruct p; vm_compute; reflexivity. Qed.

(** X20: an id set to null is the same as no id. A creation request whose
    body carries a null id returns what the same request without the id
    returns, and leaves the same store, for nodes and for edges. *)
Theorem null_id_is_no_id
    (label type from_node to_node : string)
    (properties : option (list (string * json))) (db : Arango.database) :
  create_node (Node.mk (Some None) label type properties) db
  = create_node (Node.mk None label type properties) db
  ∧ create_edge (Edge.mk (Some None) from_node to_node label properties) db
    = create_edge (Edge.mk None from_node to_node label properties) db.
Proof.
  unfold create_node, create_edge.
  rewrite null_id_dropped_node, null_id_dropped_edge.
  split; [done |]. unfold arango_format. simpl. done.
Qed.

(** ** Document handles *)

(** What the store takes for a handle: a blank in the key, blank parts, a
    bare key or a second slash make it refuse the edge. *)
Example valid_handle_examples :
  Arango.valid_handle "nodes/123" = true
  ∧ Arango.valid_handle "nodes/a b" = false
  ∧ Arango.valid_handle " / " = false
  ∧ Arango.valid_handle "123" = false
  ∧ Arango.valid_handle "nodes/1/2" = false.
Proof. repeat split. Qed.
